(** * A shallow embedding of the mows HTTP framework (Go)

    The router ([Router.find], [Router.addWithMiddleware]), the route
    registration path ([Engine.addRoute], [RouterGroup.Group], [Use], the
    registrars), the dispatcher ([Engine.handle], [Engine.buildChain]), the
    [responseWriter] wrapper and the [Context] helpers used by the claims.

    Go values are modelled as follows.
    - A Go [string] is a Rocq [string] (a list of bytes).
    - A Go [error] is [option error] with [None] for [nil]; an error value
      is represented by its [Error()] text.
    - A handler (a Go HandlerFunc) is a state-passing function
      [Context -> Context * option error]; the returned [Context] is the
      state of the (single, pointer-shared) request context afterwards.
    - Slices of [Middleware] live in an explicit heap of backing arrays, so
      that [append] shares the backing array exactly when Go does. *)

From Stdlib Require Import String Ascii ZArith List Lia.
From stdpp Require Import base gmap strings list.

Open Scope Z_scope.

(* ------------------------------------------------------------------ *)
(** ** Byte strings *)

Definition chr (n : nat) : string := String (ascii_of_nat n) EmptyString.
Definition dq : string := chr 34.
Definition nl : string := chr 10.

Definition sapp (a b : string) : string := String.append a b.

(** [strings.Contains(s, ":")] for a single byte. *)
Fixpoint contains_char (c : ascii) (s : string) : bool :=
  match s with
  | EmptyString => false
  | String c' r => Ascii.eqb c' c || contains_char c r
  end.

(** [strings.Contains(s, sub)] *)
Fixpoint is_prefix (p s : string) : bool :=
  match p, s with
  | EmptyString, _ => true
  | String a p', String b s' => Ascii.eqb a b && is_prefix p' s'
  | String _ _, EmptyString => false
  end.

Fixpoint contains (s sub : string) : bool :=
  match s with
  | EmptyString => is_prefix sub EmptyString
  | String _ r => is_prefix sub s || contains r sub
  end.

(** [strings.TrimLeft(s, "/")], [strings.TrimRight(s, "/")], [strings.Trim(s, "/")] *)
Fixpoint trim_left_slash (s : string) : string :=
  match s with
  | EmptyString => EmptyString
  | String c r => if Ascii.eqb c "/"%char then trim_left_slash r else s
  end.

Definition string_rev (s : string) : string :=
  string_of_list_ascii (rev (list_ascii_of_string s)).

Definition trim_slash (s : string) : string :=
  string_rev (trim_left_slash (string_rev (trim_left_slash s))).

(** [strings.Split(s, "/")]: the empty string splits into one empty field. *)
Fixpoint split_on (sep : ascii) (s : string) : list string :=
  match s with
  | EmptyString => [EmptyString]
  | String c r =>
      let rest := split_on sep r in
      if Ascii.eqb c sep then EmptyString :: rest
      else match rest with
           | x :: xs => String c x :: xs
           | [] => [chr (nat_of_ascii c)]
           end
  end.

(** [strings.HasPrefix(part, ":")] and [part[1:]] *)
Definition has_colon_prefix (s : string) : bool :=
  match s with
  | String c _ => Ascii.eqb c ":"%char
  | EmptyString => false
  end.

Definition drop1 (s : string) : string :=
  match s with
  | String _ r => r
  | EmptyString => EmptyString
  end.

(* ------------------------------------------------------------------ *)
(** ** encoding/json, for the values the framework encodes

    [json.NewEncoder(w).Encode(v)] writes the encoding of [v] followed by a
    newline. Strings are escaped as [appendString] does (Go 1.22 and
    later) with HTML escaping on, the encoder default: ASCII bytes one by
    one; from 0x80 up, [utf8.DecodeRuneInString] splits the input into
    runes, an invalid byte becomes [\ufffd], U+2028 and U+2029 are escaped
    and every other rune is copied. *)

#[local] Set Warnings "-register-all".
Inductive jvalue :=
| JStr (s : string)
| JObj (fields : list (string * jvalue)).

Definition hexdig (n : nat) : string :=
  chr (if Nat.ltb n 10 then 48 + n else 87 + n)%nat.

Definition json_escape_byte (c : ascii) : string :=
  let n := nat_of_ascii c in
  if Nat.eqb n 92 then sapp (chr 92) (chr 92)
  else if Nat.eqb n 34 then sapp (chr 92) dq
  else if Nat.eqb n 8 then "\b"
  else if Nat.eqb n 12 then "\f"
  else if Nat.eqb n 10 then "\n"
  else if Nat.eqb n 13 then "\r"
  else if Nat.eqb n 9 then "\t"
  else if Nat.ltb n 32 || Nat.eqb n 60 || Nat.eqb n 62 || Nat.eqb n 38
  then sapp "\u00" (sapp (hexdig (n / 16)) (hexdig (n mod 16)))
  else chr n.

(** [utf8.RuneError] *)
Definition RuneError : Z := 65533.

Definition byte_at (s : string) (i : nat) : Z :=
  match String.get i s with
  | Some c => Z.of_nat (nat_of_ascii c)
  | None => 0
  end.

(** utf8's [first] and [acceptRanges] tables: for a byte from 0x80 up, the
    length of the sequence it starts and the range allowed for the second
    byte; [None] for a byte that starts no sequence. *)
Definition utf8_first (b0 : Z) : option (nat * Z * Z) :=
  if Z.leb 194 b0 && Z.leb b0 223 then Some (2%nat, 128, 191)
  else if Z.eqb b0 224 then Some (3%nat, 160, 191)
  else if Z.leb 225 b0 && Z.leb b0 236 then Some (3%nat, 128, 191)
  else if Z.eqb b0 237 then Some (3%nat, 128, 159)
  else if Z.leb 238 b0 && Z.leb b0 239 then Some (3%nat, 128, 191)
  else if Z.eqb b0 240 then Some (4%nat, 144, 191)
  else if Z.leb 241 b0 && Z.leb b0 243 then Some (4%nat, 128, 191)
  else if Z.eqb b0 244 then Some (4%nat, 128, 143)
  else None.

Definition is_cont (b : Z) : bool := Z.leb 128 b && Z.leb b 191.

(** [utf8.DecodeRuneInString] *)
Definition DecodeRuneInString (s : string) : Z * nat :=
  match s with
  | EmptyString => (RuneError, 0%nat)
  | String c0 _ =>
      let b0 := Z.of_nat (nat_of_ascii c0) in
      if Z.ltb b0 128 then (b0, 1%nat)
      else match utf8_first b0 with
           | None => (RuneError, 1%nat)
           | Some (sz, lo, hi) =>
               if Nat.ltb (String.length s) sz then (RuneError, 1%nat) else
               let b1 := byte_at s 1 in
               if Z.ltb b1 lo || Z.ltb hi b1 then (RuneError, 1%nat)
               else if Nat.leb sz 2 then
                 (Z.lor (Z.shiftl (Z.land b0 31) 6) (Z.land b1 63), 2%nat)
               else
                 let b2 := byte_at s 2 in
                 if negb (is_cont b2) then (RuneError, 1%nat)
                 else if Nat.leb sz 3 then
                   (Z.lor (Z.lor (Z.shiftl (Z.land b0 15) 12) (Z.shiftl (Z.land b1 63) 6))
                          (Z.land b2 63), 3%nat)
                 else
                   let b3 := byte_at s 3 in
                   if negb (is_cont b3) then (RuneError, 1%nat)
                   else (Z.lor (Z.lor (Z.lor (Z.shiftl (Z.land b0 7) 18) (Z.shiftl (Z.land b1 63) 12))
                                      (Z.shiftl (Z.land b2 63) 6)) (Z.land b3 63), 4%nat)
           end
  end.

(** The loop of [appendString]; each round consumes at least one byte,
    so the length of the input is enough fuel. *)
Fixpoint json_escape_fuel (fuel : nat) (s : string) : string :=
  match fuel with
  | O => EmptyString
  | S f =>
      match s with
      | EmptyString => EmptyString
      | String c r =>
          if Nat.ltb (nat_of_ascii c) 128 then sapp (json_escape_byte c) (json_escape_fuel f r)
          else
            let '(rn, size) := DecodeRuneInString s in
            let rest := String.substring size (String.length s - size) s in
            if Z.eqb rn RuneError && Nat.eqb size 1 then sapp "\ufffd" (json_escape_fuel f rest)
            else if Z.eqb rn 8232 || Z.eqb rn 8233 then
              sapp (sapp "\u202" (hexdig (Z.to_nat (Z.land rn 15)))) (json_escape_fuel f rest)
            else sapp (String.substring 0 size s) (json_escape_fuel f rest)
      end
  end.

Definition json_escape (s : string) : string := json_escape_fuel (String.length s) s.

Definition json_quote (s : string) : string := sapp dq (sapp (json_escape s) dq).

Fixpoint json_encode (v : jvalue) : string :=
  match v with
  | JStr s => json_quote s
  | JObj fs =>
      let fix fields (l : list (string * jvalue)) : string :=
        match l with
        | [] => EmptyString
        | [(k, x)] => sapp (json_quote k) (sapp ":" (json_encode x))
        | (k, x) :: l' =>
            sapp (json_quote k) (sapp ":" (sapp (json_encode x) (sapp "," (fields l'))))
        end in
      sapp "{" (sapp (fields fs) "}")
  end.

(* ------------------------------------------------------------------ *)
(** ** Errors, header lookup and decimal numbers *)

Definition error := string.

(** [http.Header.Get]: the first value, or [""] *)
Definition header_Get (h : gmap string (list string)) (k : string) : string :=
  match h !! k with
  | Some (v :: _) => v
  | _ => EmptyString
  end.

Definition is_digit (c : ascii) : bool := Nat.leb 48 (nat_of_ascii c) && Nat.leb (nat_of_ascii c) 57.

Fixpoint digits_value (s : string) (acc : Z) : option Z :=
  match s with
  | EmptyString => Some acc
  | String c r =>
      if is_digit c then digits_value r (acc * 10 + Z.of_nat (nat_of_ascii c - 48)) else None
  end.

Definition int_min : Z := - 2 ^ 63.
Definition int_max : Z := 2 ^ 63 - 1.

(** [strconv.Atoi] on a 64-bit platform: an optional sign and at least one
    decimal digit; out of range gives the clamped value and a range error.
    (The quoting of the input in the message is [strconv.Quote]'s, only
    approximated here.) *)
Definition Atoi (s : string) : Z * option error :=
  let syntax := Some (sapp "strconv.Atoi: parsing " (sapp dq (sapp s (sapp dq ": invalid syntax")))) in
  let range := Some (sapp "strconv.Atoi: parsing " (sapp dq (sapp s (sapp dq ": value out of range")))) in
  let '(neg, digits) :=
    match s with
    | String c r =>
        if Ascii.eqb c "-"%char then (true, r)
        else if Ascii.eqb c "+"%char then (false, r) else (false, s)
    | EmptyString => (false, s)
    end in
  match digits with
  | EmptyString => (0, syntax)
  | _ =>
      match digits_value digits 0 with
      | None => (0, syntax)
      | Some n =>
          let v := if neg then - n else n in
          if Z.ltb v int_min then (int_min, range)
          else if Z.ltb int_max v then (int_max, range)
          else (v, None)
      end
  end.

(** [fmt]'s [%v] of an int: its decimal digits, after a minus sign when
    negative (an int has at most 19 digits). *)
Fixpoint fmt_digits (fuel : nat) (n : N) (acc : string) : string :=
  match fuel with
  | O => acc
  | S f =>
      let acc' := String (ascii_of_N (48 + N.modulo n 10)) acc in
      if N.ltb n 10 then acc' else fmt_digits f (N.div n 10) acc'
  end.

Definition fmt_int (z : Z) : string :=
  if Z.ltb z 0 then String "-"%char (fmt_digits 20 (Z.to_N (- z)) EmptyString)
  else fmt_digits 20 (Z.to_N z) EmptyString.

(* ------------------------------------------------------------------ *)
(** ** net/http: the server's response writer ([*http.response])

    [tw_header] is the handler's header map; once the header is written it
    is the header sent, and later changes to the map are not sent. When it
    flushes, the server also adds Date, the framing headers and, for a
    body without a Content-Type, a sniffed one; these are not recorded.
    [tw_status] is the status sent, 200 if the handler never sets one
    ([finishRequest] then writes 200). [tw_interim] lists the 1xx
    informational responses sent before the final header.
    [tw_contentLength] is [w.contentLength], set when the header is
    written (-1 when no valid Content-Length was declared), and [tw_written] is [w.written], the bytes the handler asked
    to write once the status allowed a body. [tw_body] is the body
    accepted; for a HEAD request the server drops it when it sends. The
    connection is taken to be healthy: no hijacking, no 100-continue
    handshake and no write error from the socket.

    [WriteHeader] panics on a code outside 100..999. That panic unwinds
    the handler: [tw_panic] keeps its value, and from then on every call
    on the writer does nothing, as none of them would run. *)

Record transport := mkTransport {
  tw_header : gmap string (list string);
  tw_wrote : bool;             (* [w.wroteHeader] *)
  tw_status : Z;
  tw_interim : list Z;
  tw_contentLength : Z;
  tw_written : Z;
  tw_body : string;
  tw_panic : option string
}.

Definition fresh_transport : transport :=
  {| tw_header := ∅; tw_wrote := false; tw_status := 200; tw_interim := [];
     tw_contentLength := -1; tw_written := 0; tw_body := EmptyString; tw_panic := None |}.

Definition set_tw_header (w : transport) (h : gmap string (list string)) : transport :=
  {| tw_header := h; tw_wrote := tw_wrote w; tw_status := tw_status w; tw_interim := tw_interim w;
     tw_contentLength := tw_contentLength w; tw_written := tw_written w; tw_body := tw_body w;
     tw_panic := tw_panic w |}.

Definition set_tw_panic (w : transport) (p : option string) : transport :=
  {| tw_header := tw_header w; tw_wrote := tw_wrote w; tw_status := tw_status w;
     tw_interim := tw_interim w; tw_contentLength := tw_contentLength w;
     tw_written := tw_written w; tw_body := tw_body w; tw_panic := p |}.

(** [w.Header().Set(k, v)]; the keys used are already in canonical form. *)
Definition tw_Header_Set (w : transport) (k v : string) : transport :=
  match tw_panic w with
  | Some _ => w
  | None => if tw_wrote w then w else set_tw_header w (<[k := [v]]> (tw_header w))
  end.

(** [w.Header().Del(k)] *)
Definition tw_Header_Del (w : transport) (k : string) : transport :=
  match tw_panic w with
  | Some _ => w
  | None => if tw_wrote w then w else set_tw_header w (delete k (tw_header w))
  end.

(** [checkWriteHeaderCode] *)
Definition valid_code (code : Z) : bool := Z.leb 100 code && Z.leb code 999.

(** The 1xx codes [WriteHeader] sends as informational responses. *)
Definition informational (code : Z) : bool :=
  Z.leb 100 code && Z.leb code 199 && negb (Z.eqb code 101).

(** [bodyAllowedForStatus] *)
Definition bodyAllowedForStatus (status : Z) : bool :=
  negb (Z.leb 100 status && Z.leb status 199) && negb (Z.eqb status 204) && negb (Z.eqb status 304).

Definition ErrBodyNotAllowed : error := "http: request method or response status code does not allow body".
Definition ErrContentLength : error := "http: wrote more than the declared Content-Length".

(** [response.WriteHeader]. A declared Content-Length is read with
    [strconv.ParseInt(cl, 10, 64)], which accepts the same strings as
    [Atoi] on a 64-bit platform and gives the same value; an invalid or
    negative one is deleted from the header. *)
Definition tw_WriteHeader (w : transport) (code : Z) : transport :=
  match tw_panic w with
  | Some _ => w
  | None =>
      if negb (valid_code code) then set_tw_panic w (Some (sapp "invalid WriteHeader code " (fmt_int code)))
      else if tw_wrote w then w  (* superfluous: only logged *)
      else if informational code then
        {| tw_header := tw_header w; tw_wrote := false; tw_status := tw_status w;
           tw_interim := tw_interim w ++ [code]; tw_contentLength := tw_contentLength w;
           tw_written := tw_written w; tw_body := tw_body w; tw_panic := None |}
      else
        let cl := header_Get (tw_header w) "Content-Length" in
        let '(hdr, len) :=
          if String.eqb cl EmptyString then (tw_header w, -1)
          else match Atoi cl with
               | (v, None) => if Z.leb 0 v then (tw_header w, v)
                              else (delete "Content-Length" (tw_header w), -1)
               | (_, Some _) => (delete "Content-Length" (tw_header w), -1)
               end in
        {| tw_header := hdr; tw_wrote := true; tw_status := code; tw_interim := tw_interim w;
           tw_contentLength := len; tw_written := tw_written w; tw_body := tw_body w;
           tw_panic := None |}
  end.

(** [response.Write]: the bytes accepted and the error. *)
Definition tw_Write (w : transport) (b : string) : transport * (Z * option error) :=
  match tw_panic w with
  | Some _ => (w, (0, None))
  | None =>
      let w1 := tw_WriteHeader w 200 in
      let n := Z.of_nat (String.length b) in
      if Z.eqb n 0 then (w1, (0, None))
      else if negb (bodyAllowedForStatus (tw_status w1)) then (w1, (0, Some ErrBodyNotAllowed))
      else
        let written := tw_written w1 + n in
        let ok := Z.eqb (tw_contentLength w1) (-1) || Z.leb written (tw_contentLength w1) in
        ({| tw_header := tw_header w1; tw_wrote := tw_wrote w1; tw_status := tw_status w1;
            tw_interim := tw_interim w1; tw_contentLength := tw_contentLength w1;
            tw_written := written; tw_body := if ok then sapp (tw_body w1) b else tw_body w1;
            tw_panic := tw_panic w1 |},
         if ok then (n, None) else (0, Some ErrContentLength))
  end.

(** [http.Error(w, msg, code)] *)
Definition http_Error (w : transport) (msg : string) (code : Z) : transport :=
  let w0 := tw_Header_Del w "Content-Length" in
  let w1 := tw_Header_Set w0 "Content-Type" "text/plain; charset=utf-8" in
  let w2 := tw_Header_Set w1 "X-Content-Type-Options" "nosniff" in
  fst (tw_Write (tw_WriteHeader w2 code) (sapp msg nl)).

(** [http.NotFound(w, r)] *)
Definition http_NotFound (w : transport) : transport := http_Error w "404 page not found" 404.

(* ------------------------------------------------------------------ *)
(** ** response_writer.go *)

Record responseWriter := mkResponseWriter {
  ResponseWriter : transport;
  rw_status : Z;
  rw_size : Z
}.

Definition newResponseWriter (w : transport) : responseWriter :=
  {| ResponseWriter := w; rw_status := 200; rw_size := 0 |}.

(** [rw.status = code] runs before the transport's [WriteHeader], which
    may panic. *)
Definition rw_WriteHeader (rw : responseWriter) (code : Z) : responseWriter :=
  match tw_panic (ResponseWriter rw) with
  | Some _ => rw
  | None => {| ResponseWriter := tw_WriteHeader (ResponseWriter rw) code;
               rw_status := code; rw_size := rw_size rw |}
  end.

Definition rw_Write (rw : responseWriter) (b : string) : responseWriter * (Z * option error) :=
  let '(w', (size, err)) := tw_Write (ResponseWriter rw) b in
  ({| ResponseWriter := w'; rw_status := rw_status rw; rw_size := rw_size rw + size |}, (size, err)).

Definition rw_set_transport (rw : responseWriter) (w : transport) : responseWriter :=
  {| ResponseWriter := w; rw_status := rw_status rw; rw_size := rw_size rw |}.

(* ------------------------------------------------------------------ *)
(** ** The request and the Context (context.go) *)

(** A request body as [io.ReadAll] sees it: the bytes it delivers until
    it ends, and the read error that ends it ([None] at EOF). *)
Record ReadCloser := mkReadCloser { body_data : string; body_err : option error }.

(** A body read in full without error. *)
Definition full_body (s : string) : ReadCloser := {| body_data := s; body_err := None |}.

(** [io.ReadAll(r)] *)
Definition io_ReadAll (r : ReadCloser) : string * option error := (body_data r, body_err r).

Record Request := mkRequest {
  Method : string;
  URL_Path : string;
  URL_RawQuery : string;
  Header : gmap string (list string);
  Body : option ReadCloser  (* [None] is a nil [Body] *)
}.

Record Context := mkContext {
  Writer : responseWriter;
  c_Request : Request;
  Params : option (gmap string string);  (* [None] is a nil map *)
  c_Status : Z
}.

Definition NewContext (w : responseWriter) (r : Request) : Context :=
  {| Writer := w; c_Request := r; Params := Some ∅; c_Status := 200 |}.

Definition set_Writer (c : Context) (rw : responseWriter) : Context :=
  {| Writer := rw; c_Request := c_Request c; Params := Params c; c_Status := c_Status c |}.

Definition set_Params (c : Context) (p : option (gmap string string)) : Context :=
  {| Writer := Writer c; c_Request := c_Request c; Params := p; c_Status := c_Status c |}.

Definition HandlerFunc := Context -> Context * option error.
Definition Middleware := HandlerFunc -> HandlerFunc.
Definition ErrorHandler := Context -> error -> Context.

(** [Context.JSON]: the status goes through the wrapper, the body is
    encoded into [c.Writer.ResponseWriter], the wrapped transport;
    [Encode] returns the error of its one [Write]. *)
Definition Context_JSON (c : Context) (code : Z) (v : jvalue) : Context * option error :=
  let rw := Writer c in
  let rw0 := rw_set_transport rw (tw_Header_Set (ResponseWriter rw) "Content-Type" "application/json") in
  let rw1 := rw_WriteHeader rw0 code in
  let '(w2, (_, err)) := tw_Write (ResponseWriter rw1) (sapp (json_encode v) nl) in
  (set_Writer c (rw_set_transport rw1 w2), err).

(** [Context.Text] *)
Definition Context_Text (c : Context) (code : Z) (s : string) : Context * option error :=
  let rw1 := rw_WriteHeader (Writer c) code in
  let '(rw2, (_, err)) := rw_Write rw1 s in
  (set_Writer c rw2, err).

(** [serverError{Error: msg}] as encoding/json sees it *)
Definition serverError (msg : string) : jvalue := JObj [("error", JStr msg)].

(** [defaultErrorHandler] (engine.go); the error of [c.JSON] is dropped. *)
Definition defaultErrorHandler : ErrorHandler :=
  fun c err => fst (Context_JSON c 400 (serverError err)).

(* ------------------------------------------------------------------ *)
(** ** Go slices of Middleware and their backing arrays

    A slice header is (backing array, len, cap); the offset is always 0
    here since the program never reslices a middleware slice. A
    [Middleware] is a func value, one pointer (8 bytes) wide. *)

Record slice := mkSlice { s_arr : option nat; s_len : nat; s_cap : nat }.

Definition nil_slice : slice := {| s_arr := None; s_len := 0; s_cap := 0 |}.

Record heap := mkHeap { h_next : nat; h_arrays : gmap nat (list Middleware) }.

Definition empty_heap : heap := {| h_next := 0; h_arrays := ∅ |}.

(** Reading [s[0:len(s)]] *)
Definition slice_read (h : heap) (s : slice) : list Middleware :=
  match s_arr s with
  | None => []
  | Some a => firstn (s_len s) (default [] (h_arrays h !! a))
  end.

(** runtime: the malloc size classes (sizeclasses.go) *)
Definition size_classes : list N :=
  [8; 16; 24; 32; 48; 64; 80; 96; 112; 128; 144; 160; 176; 192; 208; 224;
   240; 256; 288; 320; 352; 384; 416; 448; 480; 512; 576; 640; 704; 768;
   896; 1024; 1152; 1280; 1408; 1536; 1792; 2048; 2304; 2688; 3072; 3200;
   3456; 4096; 4864; 5376; 6144; 6528; 6784; 6912; 8192; 9472; 9728; 10240;
   10880; 12288; 13568; 14336; 16384; 18432; 19072; 20480; 21760; 24576;
   27264; 28672; 32768]%N.

(** runtime: [roundupsize]; small sizes go to the smallest class that fits,
    large ones are rounded up to the 8 KiB page. *)
Definition roundupsize (size : N) : N :=
  if (size <? 32768)%N then
    match List.find (fun c => (size <=? c)%N) size_classes with
    | Some c => c
    | None => size
    end
  else ((size + 8191) / 8192 * 8192)%N.

(** runtime: [nextslicecap] *)
Fixpoint grow_large (fuel newcap newLen : nat) : nat :=
  match fuel with
  | O => newcap
  | S fuel' =>
      let newcap' := (newcap + Nat.div (newcap + 3 * 256) 4)%nat in
      if Nat.leb newLen newcap' then newcap' else grow_large fuel' newcap' newLen
  end.

Definition nextslicecap (newLen oldCap : nat) : nat :=
  let doublecap := (oldCap + oldCap)%nat in
  if Nat.ltb doublecap newLen then newLen
  else if Nat.ltb oldCap 256 then doublecap
  else grow_large newLen oldCap newLen.

(** runtime: [growslice] for pointer-sized elements *)
Definition growslice_cap (oldCap newLen : nat) : nat :=
  let newcap := nextslicecap newLen oldCap in
  N.to_nat (roundupsize (N.of_nat newcap * 8) / 8).

Definition cells_write (cells : list Middleware) (pos : nat) (xs : list Middleware) :=
  firstn pos cells ++ xs ++ skipn (pos + length xs) cells.

(** [append(s, xs...)]: in place when the capacity suffices, otherwise
    into a fresh backing array of capacity [growslice_cap]. *)
Definition slice_append (h : heap) (s : slice) (xs : list Middleware) : heap * slice :=
  match xs with
  | [] => (h, s)
  | _ :: _ =>
      let newLen := (s_len s + length xs)%nat in
      if Nat.leb newLen (s_cap s) then
        match s_arr s with
        | Some a =>
            let cells := default [] (h_arrays h !! a) in
            ({| h_next := h_next h; h_arrays := <[a := cells_write cells (s_len s) xs]> (h_arrays h) |},
             {| s_arr := Some a; s_len := newLen; s_cap := s_cap s |})
        | None => (h, s)  (* a nil slice has capacity 0 *)
        end
      else
        let a := h_next h in
        ({| h_next := S a; h_arrays := <[a := slice_read h s ++ xs]> (h_arrays h) |},
         {| s_arr := Some a; s_len := newLen; s_cap := growslice_cap (s_cap s) newLen |})
  end.

(** The slice a variadic call [f(x1, ..., xn)] passes: a fresh array of
    exactly [n] elements, or nil when there are none. *)
Definition slice_lit (h : heap) (xs : list Middleware) : heap * slice :=
  match xs with
  | [] => (h, nil_slice)
  | _ :: _ =>
      let a := h_next h in
      ({| h_next := S a; h_arrays := <[a := xs]> (h_arrays h) |},
       {| s_arr := Some a; s_len := length xs; s_cap := length xs |})
  end.

(* ------------------------------------------------------------------ *)
(** ** The router (router.go) *)

Record route := mkRoute { handler : HandlerFunc; middlewares : slice }.

Record paramRoute := mkParamRoute { pathParts : list string; pr_route : route }.

Record Router := mkRouter {
  staticRoutes : gmap string (gmap string route);
  paramRoutes : gmap string (list paramRoute)
}.

Definition NewRouter : Router := {| staticRoutes := ∅; paramRoutes := ∅ |}.

Definition split_path (path : string) : list string := split_on "/"%char (trim_slash path).

(** [hasParams] *)
Definition hasParams (path : string) : bool := contains_char ":"%char path.

(** The inner loop of [find] over [paramRoute.pathParts]; [None] is the
    [match = false; break] exit. *)
Fixpoint match_parts (parts requestParts : list string) (params : gmap string string)
  : option (gmap string string) :=
  match parts, requestParts with
  | [], _ => Some params
  | part :: parts', rp :: rps =>
      if has_colon_prefix part then match_parts parts' rps (<[drop1 part := rp]> params)
      else if String.eqb part rp then match_parts parts' rps params
      else None
  | _ :: _, [] => None  (* lengths are checked equal before the loop *)
  end.

(** The outer loop of [find] over [r.paramRoutes[method]] *)
Fixpoint scan_params (cands : list paramRoute) (requestParts : list string)
  : option (route * option (gmap string string)) :=
  match cands with
  | [] => None
  | pr :: rest =>
      if negb (Nat.eqb (length (pathParts pr)) (length requestParts))
      then scan_params rest requestParts
      else match match_parts (pathParts pr) requestParts ∅ with
           | Some params => Some (pr_route pr, Some params)
           | None => scan_params rest requestParts
           end
  end.

Definition static_lookup (r : Router) (method path : string) : option route :=
  staticRoutes r !! method ≫= (fun m => m !! path).

(** [Router.find]; [None] is [(nil, nil)], a static hit has nil params. *)
Definition find (r : Router) (method path : string) : option (route * option (gmap string string)) :=
  match static_lookup r method path with
  | Some rt => Some (rt, None)
  | None => scan_params (default [] (paramRoutes r !! method)) (split_path path)
  end.

(** [Router.addWithMiddleware] *)
Definition addWithMiddleware (r : Router) (method path : string) (h : HandlerFunc) (mws : slice) : Router :=
  let rt := {| handler := h; middlewares := mws |} in
  if negb (hasParams path) then
    {| staticRoutes := <[method := <[path := rt]> (default ∅ (staticRoutes r !! method))]> (staticRoutes r);
       paramRoutes := paramRoutes r |}
  else
    {| staticRoutes := staticRoutes r;
       paramRoutes := <[method := default [] (paramRoutes r !! method)
                                  ++ [{| pathParts := split_path path; pr_route := rt |}]]> (paramRoutes r) |}.

(** [wrapHandlerAsMiddleware] *)
Definition wrapHandlerAsMiddleware (h : HandlerFunc) : Middleware :=
  fun next c =>
    let '(c1, err) := h c in
    match err with
    | Some _ => (c1, err)
    | None =>
        let '(c2, err2) := next c1 in
        match err2 with
        | Some _ => (c2, err2)
        | None => (c2, None)
        end
    end.

(* ------------------------------------------------------------------ *)
(** ** The engine, groups and registration (engine.go, middleware.go, group.go)

    The engine's state is its router, its global middleware slice, its
    error handler and the heap holding every middleware backing array.
    A [RouterGroup] holds its prefix and its middleware slice; its engine
    pointer is the engine the operations are applied to. *)

Record Engine := mkEngine {
  router : Router;
  e_middlewares : slice;
  errorHandler : ErrorHandler;
  e_heap : heap
}.

Record RouterGroup := mkRouterGroup { prefix : string; rg_middlewares : slice }.

Definition set_heap (e : Engine) (h : heap) : Engine :=
  {| router := router e; e_middlewares := e_middlewares e; errorHandler := errorHandler e; e_heap := h |}.

(** [New]; the root group has an empty prefix and a nil middleware slice. *)
Definition New : Engine :=
  {| router := NewRouter; e_middlewares := nil_slice; errorHandler := defaultErrorHandler;
     e_heap := empty_heap |}.

Definition rootGroup : RouterGroup := {| prefix := EmptyString; rg_middlewares := nil_slice |}.

(** [Engine.SetErrorHandler] *)
Definition SetErrorHandler (e : Engine) (eh : ErrorHandler) : Engine :=
  {| router := router e; e_middlewares := e_middlewares e; errorHandler := eh; e_heap := e_heap e |}.

(** [Engine.Use]: [e.middlewares = append(e.middlewares, m...)] *)
Definition Engine_Use (e : Engine) (m : list Middleware) : Engine :=
  let '(h', s') := slice_append (e_heap e) (e_middlewares e) m in
  {| router := router e; e_middlewares := s'; errorHandler := errorHandler e; e_heap := h' |}.

(** [Engine.Group]: the group keeps the variadic slice itself. *)
Definition Engine_Group (e : Engine) (pfx : string) (m : list Middleware) : Engine * RouterGroup :=
  let '(h', s') := slice_lit (e_heap e) m in
  (set_heap e h', {| prefix := pfx; rg_middlewares := s' |}).

(** [RouterGroup.Group]: [append(rg.middlewares, m...)] *)
Definition RouterGroup_Group (e : Engine) (rg : RouterGroup) (pfx : string) (m : list Middleware)
  : Engine * RouterGroup :=
  let '(h', s') := slice_append (e_heap e) (rg_middlewares rg) m in
  (set_heap e h', {| prefix := sapp (prefix rg) pfx; rg_middlewares := s' |}).

(** [RouterGroup.Use]: [rg.middlewares = append(rg.middlewares, m...)] *)
Definition RouterGroup_Use (e : Engine) (rg : RouterGroup) (m : list Middleware)
  : Engine * RouterGroup :=
  let '(h', s') := slice_append (e_heap e) (rg_middlewares rg) m in
  (set_heap e h', {| prefix := prefix rg; rg_middlewares := s' |}).

(** The loop [for _, h := range routeHandlers { routeMiddlewares =
    append(routeMiddlewares, wrapHandlerAsMiddleware(h)) }] *)
Fixpoint append_each (h : heap) (s : slice) (xs : list HandlerFunc) : heap * slice :=
  match xs with
  | [] => (h, s)
  | x :: xs' =>
      let '(h', s') := slice_append h s [wrapHandlerAsMiddleware x] in
      append_each h' s' xs'
  end.

Definition addRoute_panic : string := "route must have at least one handler".

(** [Engine.addRoute]; the second component is the value of a panic. *)
Definition addRoute (e : Engine) (method path : string) (mws : slice) (handlers : list HandlerFunc)
  : Engine * option string :=
  match handlers with
  | [] => (e, Some addRoute_panic)
  | h0 :: _ =>
      let final := List.last handlers h0 in
      let routeHandlers := removelast handlers in
      let '(h1, routeMiddlewares) := append_each (e_heap e) nil_slice routeHandlers in
      let '(h2, allMiddlewares) := slice_append h1 mws (slice_read h1 routeMiddlewares) in
      ({| router := addWithMiddleware (router e) method path final allMiddlewares;
          e_middlewares := e_middlewares e; errorHandler := errorHandler e; e_heap := h2 |}, None)
  end.

(** [RouterGroup.GET] / [POST] / [PUT] / [DELETE] *)
Definition RouterGroup_handle (method : string) (e : Engine) (rg : RouterGroup) (path : string)
  (handlers : list HandlerFunc) : Engine * option string :=
  addRoute e method (sapp (prefix rg) path) (rg_middlewares rg) handlers.

Definition RouterGroup_GET := RouterGroup_handle "GET".
Definition RouterGroup_POST := RouterGroup_handle "POST".
Definition RouterGroup_PUT := RouterGroup_handle "PUT".
Definition RouterGroup_DELETE := RouterGroup_handle "DELETE".

(** [Engine.GET] and the others go through the root group. *)
Definition Engine_GET (e : Engine) := RouterGroup_GET e rootGroup.
Definition Engine_POST (e : Engine) := RouterGroup_POST e rootGroup.
Definition Engine_PUT (e : Engine) := RouterGroup_PUT e rootGroup.
Definition Engine_DELETE (e : Engine) := RouterGroup_DELETE e rootGroup.

(** Folding a middleware list right to left over a handler: the loop
    [for i := len(mws) - 1; i >= 0; i-- { h = mws[i](h) }]. *)
Definition wrap_all (mws : list Middleware) (h : HandlerFunc) : HandlerFunc :=
  fold_right (fun m acc => m acc) h mws.

(** [Engine.buildChain] *)
Definition buildChain (e : Engine) (final : HandlerFunc) : HandlerFunc :=
  wrap_all (slice_read (e_heap e) (e_middlewares e)) final.

(** [Engine.handle]; the result is the request's Context when the call
    returns (the not-found response goes to [w] itself). A panic of the
    writer left in the chain's Context leaves [handle] at once, without the
    error handler; net/http then logs it and closes the connection. *)
Definition handle (e : Engine) (w : transport) (r : Request) : Context :=
  let rw := newResponseWriter w in
  let ctx := NewContext rw r in
  match find (router e) (Method r) (URL_Path r) with
  | None => set_Writer ctx (rw_set_transport rw (http_NotFound w))
  | Some (rt, params) =>
      let ctx1 := set_Params ctx params in
      let h := wrap_all (slice_read (e_heap e) (middlewares rt)) (handler rt) in
      let final := buildChain e h in
      let '(ctx2, err) := final ctx1 in
      match tw_panic (ResponseWriter (Writer ctx2)) with
      | Some _ => ctx2
      | None =>
          match err with
          | Some msg => errorHandler e ctx2 msg
          | None => ctx2
          end
      end
  end.

(* ------------------------------------------------------------------ *)
(** ** Matching as the specification words it (for the refinement of [find])

    A candidate matches a request when both have the same number of
    segments and each candidate segment is a capture ([:]-prefixed) or
    byte-wise equal to the request segment; its bindings map each capture
    name to the request segment, in order. The first matching candidate in
    registration order is the result. *)

Definition spec_seg_ok (part rp : string) : bool := has_colon_prefix part || String.eqb part rp.

Fixpoint spec_parts_match (parts req : list string) : bool :=
  match parts, req with
  | [], [] => true
  | part :: ps, rp :: rs => spec_seg_ok part rp && spec_parts_match ps rs
  | _, _ => false
  end.

Fixpoint spec_bindings (parts req : list string) (acc : gmap string string) : gmap string string :=
  match parts, req with
  | part :: ps, rp :: rs =>
      spec_bindings ps rs (if has_colon_prefix part then <[drop1 part := rp]> acc else acc)
  | _, _ => acc
  end.

Fixpoint spec_first_match (cands : list paramRoute) (req : list string)
  : option (route * option (gmap string string)) :=
  match cands with
  | [] => None
  | pr :: rest =>
      if spec_parts_match (pathParts pr) req
      then Some (pr_route pr, Some (spec_bindings (pathParts pr) req ∅))
      else spec_first_match rest req
  end.

(** A registration [r.addWithMiddleware(method, path, handler, mws)]. *)
Definition registration := (string * string * HandlerFunc * slice)%type.

Definition register_all (r : Router) (regs : list registration) : Router :=
  fold_left (fun r0 (x : registration) =>
               let '(m, p, h, s) := x in addWithMiddleware r0 m p h s) regs r.

(* ------------------------------------------------------------------ *)
(** ** Handlers used in concrete runs

    [tracing_mw name] is [func(next) { return func(c) { c.Writer.Write(name);
    return next(c) } }]; [trace_handler name] writes [name] and returns nil. *)

Definition trace_write (c : Context) (s : string) : Context :=
  set_Writer c (fst (rw_Write (Writer c) s)).

Definition tracing_mw (name : string) : Middleware := fun next c => next (trace_write c name).

Definition trace_handler (name : string) : HandlerFunc := fun c => (trace_write c name, None).

Definition failing_handler (name msg : string) : HandlerFunc := fun c => (trace_write c name, Some msg).

Definition mkReq (method path : string) : Request :=
  {| Method := method; URL_Path := path; URL_RawQuery := EmptyString; Header := ∅;
     Body := Some (full_body EmptyString) |}.

Definition response_body (c : Context) : string := tw_body (ResponseWriter (Writer c)).
Definition response_status (c : Context) : Z := tw_status (ResponseWriter (Writer c)).

(** A handler that fails with [msg] without writing anything. *)
Definition erroring_handler (msg : string) : HandlerFunc := fun c => (c, Some msg).

(** [return c.JSON(200, map[string]string{"pong": "yes"})] *)
Definition json_pong_handler : HandlerFunc :=
  fun c => Context_JSON c 200 (JObj [("pong", JStr "yes")]).

(** [return c.Text(200, "pong")] *)
Definition text_pong_handler : HandlerFunc :=
  fun c => Context_Text c 200 "pong".

(** A group with three middlewares added one [Use] at a time, then two
    routes, each with one handler before its final one:

    g := app.Group("/g"); g.Use(a); g.Use(b); g.Use(c)
    g.GET("/x", h1, hx); g.GET("/y", h2, hy) *)
Definition group_scenario : Engine :=
  let '(e1, g0) := Engine_Group New "/g" [] in
  let '(e2, g1) := RouterGroup_Use e1 g0 [tracing_mw "a"] in
  let '(e3, g2) := RouterGroup_Use e2 g1 [tracing_mw "b"] in
  let '(e4, g3) := RouterGroup_Use e3 g2 [tracing_mw "c"] in
  let '(e5, _) := RouterGroup_GET e4 g3 "/x" [trace_handler "1"; trace_handler "X"] in
  let '(e6, _) := RouterGroup_GET e5 g3 "/y" [trace_handler "2"; trace_handler "Y"] in
  e6.

(** [app.GET("/users/1", func(c) error { return errors.New("user not found") })] *)
Definition error_scenario : Engine :=
  fst (Engine_GET New "/users/1" [erroring_handler "user not found"]).

(** The body [{"error":"<msg>"}] as the claim writes it (no newline). *)
Definition claimed_error_body (msg : string) : string :=
  sapp "{" (sapp dq (sapp "error" (sapp dq (sapp ":" (sapp dq (sapp msg (sapp dq "}"))))))).

Definition json_scenario : Engine := fst (Engine_GET New "/ping" [json_pong_handler]).
Definition text_scenario : Engine := fst (Engine_GET New "/ping" [text_pong_handler]).

(* ------------------------------------------------------------------ *)
(** ** [Context.BindJSON]

    [json.Unmarshal] is the library's decoder: it is a parameter, taking
    the body and the target and giving the target afterwards and the
    error. The body is read once per request here: the model does not
    record that [io.ReadAll] leaves it drained. *)

Definition err_body_nil : error := "request body is empty".
Definition err_content_type : error := "content-type must be application/json".
Definition err_empty_json : error := "empty json body".

Section BindJSON.
Context {T : Type} (Unmarshal : string -> T -> T * option error).

Definition BindJSON (c : Context) (v : T) : T * option error :=
  match Body (c_Request c) with
  | None => (v, Some err_body_nil)
  | Some body =>
      let contentType := header_Get (Header (c_Request c)) "Content-Type" in
      if negb (contains contentType "application/json") then (v, Some err_content_type)
      else match io_ReadAll body with
           | (_, Some err) => (v, Some err)
           | (data, None) =>
               if Nat.eqb (String.length data) 0 then (v, Some err_empty_json)
               else Unmarshal data v
           end
  end.
End BindJSON.

Definition with_body_and_header (hdr : gmap string (list string)) (body : option ReadCloser) : Context :=
  NewContext (newResponseWriter fresh_transport)
    {| Method := "POST"; URL_Path := "/users"; URL_RawQuery := EmptyString; Header := hdr; Body := body |}.

(* ------------------------------------------------------------------ *)
(** ** Query parameters: net/url and strconv *)

Definition is_hex (c : ascii) : bool :=
  let n := nat_of_ascii c in
  (Nat.leb 48 n && Nat.leb n 57) || (Nat.leb 97 n && Nat.leb n 102) || (Nat.leb 65 n && Nat.leb n 70).

Definition unhex (c : ascii) : nat :=
  let n := nat_of_ascii c in
  if Nat.leb n 57 then n - 48 else if Nat.leb 97 n then n - 87 else n - 55.

(** [url.QueryUnescape]: [%XX] escapes and [+] for a space; a bad escape
    is an error. *)
Fixpoint query_unescape (s : string) : option string :=
  match s with
  | EmptyString => Some EmptyString
  | String c r =>
      if Ascii.eqb c "%"%char then
        match r with
        | String h1 (String h2 r') =>
            if is_hex h1 && is_hex h2
            then option_map (String (ascii_of_nat (16 * unhex h1 + unhex h2))) (query_unescape r')
            else None
        | _ => None
        end
      else if Ascii.eqb c "+"%char then option_map (String " "%char) (query_unescape r)
      else option_map (String c) (query_unescape r)
  end.

(** [strings.Cut(s, "=")] *)
Fixpoint cut_eq (s : string) : string * string :=
  match s with
  | EmptyString => (EmptyString, EmptyString)
  | String c r =>
      if Ascii.eqb c "="%char then (EmptyString, r)
      else let '(k, v) := cut_eq r in (String c k, v)
  end.

(** One step of [url.parseQuery]'s loop, for one [&]-separated piece. *)
Definition parse_piece (m : gmap string (list string)) (piece : string) : gmap string (list string) :=
  if contains_char ";"%char piece then m
  else if String.eqb piece EmptyString then m
  else
    let '(k, v) := cut_eq piece in
    match query_unescape k, query_unescape v with
    | Some key, Some value => <[key := default [] (m !! key) ++ [value]]> m
    | _, _ => m
    end.

(** [u.Query()]: [url.ParseQuery(u.RawQuery)] with the error dropped *)
Definition ParseQuery (q : string) : gmap string (list string) :=
  fold_left parse_piece (split_on "&"%char q) ∅.

(** [url.Values.Get] *)
Definition values_Get (v : gmap string (list string)) (key : string) : string :=
  match v !! key with
  | Some (x :: _) => x
  | _ => EmptyString
  end.

(** [Context.Query] *)
Definition Query (c : Context) (key : string) : string :=
  values_Get (ParseQuery (URL_RawQuery (c_Request c))) key.

(** [strconv.ParseBool] *)
Definition ParseBool (s : string) : bool * option error :=
  if existsb (String.eqb s) ["1"; "t"; "T"; "TRUE"; "true"; "True"] then (true, None)
  else if existsb (String.eqb s) ["0"; "f"; "F"; "FALSE"; "false"; "False"] then (false, None)
  else (false, Some (sapp "strconv.ParseBool: parsing " (sapp dq (sapp s (sapp dq ": invalid syntax"))))).

(** [Context.QueryInt] *)
Definition QueryInt (c : Context) (key : string) : Z * option error :=
  let val := Query c key in
  if String.eqb val EmptyString then (0, None) else Atoi val.

(** [Context.QueryBool] *)
Definition QueryBool (c : Context) (key : string) : bool * option error :=
  let val := Query c key in
  if String.eqb val EmptyString then (false, None) else ParseBool val.

(** [Context.DefaultQueryInt] *)
Definition DefaultQueryInt (c : Context) (key : string) (defaultValue : Z) : Z :=
  let val := Query c key in
  if String.eqb val EmptyString then defaultValue
  else match Atoi val with
       | (i, None) => i
       | (_, Some _) => defaultValue
       end.

Definition ctx_with_query (q : string) : Context :=
  NewContext (newResponseWriter fresh_transport)
    {| Method := "GET"; URL_Path := "/test"; URL_RawQuery := q; Header := ∅;
       Body := Some (full_body EmptyString) |}.

(* ------------------------------------------------------------------ *)
(** ** Well-formed heaps and slice headers

    Arrays are allocated at [h_next] and never above it; a slice header
    points below [h_next] into an array holding at least [len] elements,
    and a nil slice has length and capacity 0. *)

Definition heap_wf (h : heap) : Prop := forall a, (h_next h <= a)%nat -> h_arrays h !! a = None.

Definition slice_wf (h : heap) (s : slice) : Prop :=
  match s_arr s with
  | None => s_len s = 0%nat /\ s_cap s = 0%nat
  | Some a => (a < h_next h)%nat /\ exists cells, h_arrays h !! a = Some cells /\ (s_len s <= length cells)%nat
  end.

(* ------------------------------------------------------------------ *)
(** ** The rest of context.go: [Param] and the defaulting query helpers *)

(** [Context.Param]: [c.Params[key]]; a nil map reads as empty. *)
Definition Param (c : Context) (key : string) : string :=
  match Params c with
  | Some m => default EmptyString (m !! key)
  | None => EmptyString
  end.

(** [Context.DefaultQuery] *)
Definition DefaultQuery (c : Context) (key defaultValue : string) : string :=
  let val := Query c key in
  if String.eqb val EmptyString then defaultValue else val.

(** [Context.DefaultQueryBool] *)
Definition DefaultQueryBool (c : Context) (key : string) (defaultValue : bool) : bool :=
  let val := Query c key in
  if String.eqb val EmptyString then defaultValue
  else match ParseBool val with
       | (b, None) => b
       | (_, Some _) => defaultValue
       end.

(* ------------------------------------------------------------------ *)
(** ** Panics, [Recover] and [Logger]

    A Go handler can also panic. [PHandlerFunc] is a [HandlerFunc] whose
    outcome may be a panic, carrying the Context as it was when the panic
    unwound (the value the panic carries is kept as its text). A panic of
    the writer (an invalid status code) is the one a [HandlerFunc] can
    raise; it is left in [tw_panic]. *)

Inductive outcome :=
| Returned (err : option error)
| Panicked (value : string).

Definition PHandlerFunc := Context -> Context * outcome.

(** A [HandlerFunc] seen as a [PHandlerFunc]: a panic of the writer is
    its outcome. *)
Definition lift (h : HandlerFunc) : PHandlerFunc :=
  fun c => let '(c1, err) := h c in
           match tw_panic (ResponseWriter (Writer c1)) with
           | Some v => (c1, Panicked v)
           | None => (c1, Returned err)
           end.

(** After [recover], the writer works again, in the state the panicking
    call left it. *)
Definition clear_panic (c : Context) : Context :=
  set_Writer c (rw_set_transport (Writer c) (set_tw_panic (ResponseWriter (Writer c)) None)).

Definition internal_server_error : jvalue := JObj [("error", JStr "internal server error")].

(** [Recover()] applied to [next]: the deferred function recovers any
    panic and calls [c.JSON(500, ...)]; the function then returns its zero
    result, a nil error. A panic is the outcome [Panicked] or one of the
    writer left in [tw_panic]. *)
Definition Recover (next : PHandlerFunc) : PHandlerFunc :=
  fun c =>
    let recovered c1 := (fst (Context_JSON (clear_panic c1) 500 internal_server_error), Returned None) in
    match next c with
    | (c1, Returned err) =>
        match tw_panic (ResponseWriter (Writer c1)) with
        | None => (c1, Returned err)
        | Some _ => recovered c1
        end
    | (c1, Panicked _) => recovered c1
    end.



(* ------------------------------------------------------------------ *)
(** ** [path.Clean] and [path.Join], for [Engine.Static]

    [Clean] is Go's lexical algorithm over the bytes of the path; the
    written prefix of its buffer is kept reversed. [clean_back] is the
    [..] step [out.w--; for out.w > dotdot && out.index(out.w) != '/' {
    out.w-- }]. *)

Fixpoint clean_back (out : list ascii) (dotdot : nat) : list ascii :=
  match out with
  | [] => []
  | c :: rest =>
      if Nat.ltb dotdot (length rest) && negb (Ascii.eqb c "/"%char)
      then clean_back rest dotdot else rest
  end.

(** Copying one path element: [for ; r < n && path[r] != '/'; r++ { out.append(path[r]) }] *)
Fixpoint clean_copy (s : list ascii) (out : list ascii) : list ascii * list ascii :=
  match s with
  | [] => ([], out)
  | c :: r => if Ascii.eqb c "/"%char then (s, out) else clean_copy r (c :: out)
  end.

(** The main loop; [fuel] bounds the number of iterations, each of which
    consumes at least one byte. *)
Fixpoint clean_loop (fuel : nat) (rooted : bool) (s : list ascii) (out : list ascii) (dotdot : nat)
  : list ascii :=
  match fuel with
  | O => out
  | S fuel' =>
      match s with
      | [] => out
      | c :: r =>
          if Ascii.eqb c "/"%char then clean_loop fuel' rooted r out dotdot
          else if Ascii.eqb c "."%char &&
                  match r with [] => true | c1 :: _ => Ascii.eqb c1 "/"%char end
          then clean_loop fuel' rooted r out dotdot
          else if Ascii.eqb c "."%char &&
                  match r with
                  | c1 :: r1 => Ascii.eqb c1 "."%char &&
                                match r1 with [] => true | c2 :: _ => Ascii.eqb c2 "/"%char end
                  | [] => false
                  end
          then
            let r2 := skipn 1 r in
            if Nat.ltb dotdot (length out) then clean_loop fuel' rooted r2 (clean_back out dotdot) dotdot
            else if rooted then clean_loop fuel' rooted r2 out dotdot
            else
              let out1 := if Nat.ltb 0 (length out) then "/"%char :: out else out in
              let out2 := "."%char :: "."%char :: out1 in
              clean_loop fuel' rooted r2 out2 (length out2)
          else
            let out1 := if (rooted && negb (Nat.eqb (length out) 1))
                           || (negb rooted && negb (Nat.eqb (length out) 0))
                        then "/"%char :: out else out in
            let '(r2, out2) := clean_copy s out1 in
            clean_loop fuel' rooted r2 out2 dotdot
      end
  end.

(** [path.Clean] *)
Definition path_Clean (p : string) : string :=
  match p with
  | EmptyString => "."
  | String c _ =>
      let rooted := Ascii.eqb c "/"%char in
      let s := list_ascii_of_string p in
      let out := clean_loop (S (length s)) rooted s (if rooted then ["/"%char] else [])
                   (if rooted then 1 else 0)%nat in
      match out with
      | [] => "."
      | _ => string_of_list_ascii (rev out)
      end
  end.

(** [path.Join(a, b)]: the non-empty elements from the first non-empty
    one on, joined by [/], then cleaned; [""] when both are empty. *)
Definition path_Join2 (a b : string) : string :=
  if String.eqb (sapp a b) EmptyString then EmptyString
  else if String.eqb a EmptyString then path_Clean b
  else path_Clean (sapp a (String "/"%char b)).

(* ------------------------------------------------------------------ *)
(** ** [Engine.Static] and [Engine.StaticFS]

    The file-serving handler ([http.StripPrefix(prefix, fs).ServeHTTP(c.Writer,
    c.Request)], then [return nil]) is what [serveFiles prefix] does to
    the Context; what it serves plays no part in routing. *)

Definition static_handler (serveFiles : string -> Context -> Context) (pfx : string) : HandlerFunc :=
  fun c => (serveFiles pfx c, None).

(** [Engine.Static(prefix, root)]: [e.GET(path.Join(prefix, "/*filepath"), handler)];
    [root] only selects the file system [serveFiles] reads. *)
Definition Static (serveFiles : string -> Context -> Context) (e : Engine) (pfx : string) : Engine :=
  fst (Engine_GET e (path_Join2 pfx "/*filepath") [static_handler serveFiles pfx]).

(** [Engine.StaticFS(prefix, filesystem, root)]: [fs.Sub]'s error, if any,
    is the value of a panic; otherwise the same registration as [Static]. *)
Definition StaticFS (serveFiles : string -> Context -> Context) (e : Engine) (pfx : string)
  (sub_err : option error) : Engine * option string :=
  match sub_err with
  | Some err => (e, Some err)
  | None => Engine_GET e (path_Join2 pfx "/*filepath") [static_handler serveFiles pfx]
  end.

(* ------------------------------------------------------------------ *)
(** ** Templates (templates.go) and [Context.HTML]

    html/template is a parameter: [ParseGlob fm pattern] is
    [template.New("").Funcs(fm).ParseGlob(pattern)], and [ExecuteTemplate
    t name data] gives the writes the execution makes, in order, and the
    error it ends with when every write succeeds. text/template stops at
    the first write that fails and returns that write's error. The
    engine's [templates] and [devMode] fields are kept in
    [EngineTemplates]; no other engine operation touches them. *)

Definition ErrTemplatesNotLoaded : error := "templates not loaded".

(** The writes of a template execution to [c.Writer], up to the first
    that fails. *)
Fixpoint write_chunks (rw : responseWriter) (chunks : list string) : responseWriter * option error :=
  match chunks with
  | [] => (rw, None)
  | b :: rest =>
      let '(rw1, (_, err)) := rw_Write rw b in
      match err with
      | Some e => (rw1, Some e)
      | None => write_chunks rw1 rest
      end
  end.

(** The run-time panic of a method call on a nil [*template.Template]. *)
Definition nil_deref_panic : string :=
  "runtime error: invalid memory address or nil pointer dereference".

Section Templates.
Context {TFunc Tmpl Data : Type}.
Variables (safeHTML now date : TFunc).
Variable ParseGlob : gmap string TFunc -> string -> Tmpl + error.
Variable ExecuteTemplate : Tmpl -> string -> Data -> list string * option error.

Record TemplateEngine := mkTemplateEngine {
  te_pattern : string;
  funcMap : gmap string TFunc;
  tmpl : option Tmpl  (* [None] is a nil [*template.Template] *)
}.

Record EngineTemplates := mkEngineTemplates {
  templates : option TemplateEngine;  (* [None] is a nil [*TemplateEngine] *)
  devMode : bool
}.

(** [defaultFuncMap] *)
Definition defaultFuncMap : gmap string TFunc :=
  <["safeHTML" := safeHTML]> (<["now" := now]> (<["date" := date]> ∅)).

(** [TemplateEngine.load] *)
Definition load (t : TemplateEngine) : TemplateEngine * option error :=
  match ParseGlob (funcMap t) (te_pattern t) with
  | inl parsed => ({| te_pattern := te_pattern t; funcMap := funcMap t; tmpl := Some parsed |}, None)
  | inr err => (t, Some err)
  end.

(** [Engine.LoadTemplates] *)
Definition LoadTemplates (et : EngineTemplates) (pattern : string) : EngineTemplates * option error :=
  let engine := {| te_pattern := pattern; funcMap := defaultFuncMap; tmpl := None |} in
  match load engine with
  | (engine', None) => ({| templates := Some engine'; devMode := devMode et |}, None)
  | (_, Some err) => (et, Some err)
  end.

(** [Engine.AddTemplateFunc] *)
Definition AddTemplateFunc (et : EngineTemplates) (name : string) (fn : TFunc) : EngineTemplates :=
  let t := match templates et with
           | Some t => t
           | None => {| te_pattern := EmptyString; funcMap := defaultFuncMap; tmpl := None |}
           end in
  {| templates := Some {| te_pattern := te_pattern t; funcMap := <[name := fn]> (funcMap t);
                          tmpl := tmpl t |};
     devMode := devMode et |}.

(** [Engine.DevMode] *)
Definition DevMode (et : EngineTemplates) (enable : bool) : EngineTemplates :=
  {| templates := templates et; devMode := enable |}.

(** [Context.HTML]; in dev mode the reload replaces the engine's parsed
    templates, so the engine's template state is returned too. *)
Definition HTML (et : EngineTemplates) (c : Context) (code : Z) (name : string) (data : Data)
  : EngineTemplates * (Context * outcome) :=
  match templates et with
  | None => (et, (c, Returned (Some ErrTemplatesNotLoaded)))
  | Some t =>
      let '(t1, lerr) := if devMode et then load t else (t, None) in
      let et1 := {| templates := Some t1; devMode := devMode et |} in
      match lerr with
      | Some err => (et1, (c, Returned (Some err)))
      | None =>
          let rw := Writer c in
          let rw0 := rw_set_transport rw
                       (tw_Header_Set (ResponseWriter rw) "Content-Type" "text/html; charset=utf-8") in
          let c1 := set_Writer c (rw_WriteHeader rw0 code) in
          match tw_panic (ResponseWriter (Writer c1)), tmpl t1 with
          | Some v, _ => (et1, (c1, Panicked v))
          | None, None => (et1, (c1, Panicked nil_deref_panic))
          | None, Some tp =>
              let '(chunks, err) := ExecuteTemplate tp name data in
              let '(rw2, werr) := write_chunks (Writer c1) chunks in
              (et1, (set_Writer c1 rw2, Returned (match werr with Some e => Some e | None => err end)))
          end
      end
  end.

End Templates.

(** [Context.BindJSONAndValidate]; the validator is a parameter: it
    receives the target after binding. *)
Definition BindJSONAndValidate {T : Type} (Unmarshal : string -> T -> T * option error)
  (Validate : T -> option error) (c : Context) (v : T) : T * option error :=
  let '(v1, err) := BindJSON Unmarshal c v in
  match err with
  | Some _ => (v1, err)
  | None =>
      match Validate v1 with
      | Some verr => (v1, Some verr)
      | None => (v1, None)
      end
  end.

(* ================================================================== *)
(** * Proofs *)

(** ** The router *)

Lemma static_lookup_add_static r m p h s :
  hasParams p = false ->
  static_lookup (addWithMiddleware r m p h s) m p = Some {| handler := h; middlewares := s |}.
Proof.
  intros Hp. unfold static_lookup, addWithMiddleware. rewrite Hp. simpl.
  rewrite lookup_insert_eq. simpl. by rewrite lookup_insert_eq.
Qed.

Lemma static_lookup_add_other r m p m' p' h s :
  m' <> m \/ p' <> p ->
  static_lookup (addWithMiddleware r m' p' h s) m p = static_lookup r m p.
Proof.
  intros Hne. unfold static_lookup, addWithMiddleware.
  destruct (hasParams p'); simpl; [done |].
  destruct (decide (m' = m)) as [-> | Hm].
  - rewrite lookup_insert_eq. simpl.
    destruct Hne as [Hne | Hne]; [congruence |].
    rewrite lookup_insert_ne by done.
    destruct (staticRoutes r !! m); simpl; [done | by rewrite lookup_empty].
  - by rewrite lookup_insert_ne.
Qed.

Lemma register_all_static_kept r m p rt later :
  static_lookup r m p = Some rt ->
  Forall (fun x : registration => x.1.1.1 <> m \/ x.1.1.2 <> p) later ->
  static_lookup (register_all r later) m p = Some rt.
Proof.
  revert r. induction later as [| [[[m' p'] h'] s'] later IH]; intros r Hr Hall; [done |].
  inversion Hall as [| ? ? Hx Hrest]; subst. simpl in Hx.
  unfold register_all; simpl. apply IH; [| done].
  by rewrite static_lookup_add_other.
Qed.

(** [match_parts] computes the specification's match and bindings. *)
Lemma match_parts_spec parts req acc :
  length parts = length req ->
  match_parts parts req acc =
    if spec_parts_match parts req then Some (spec_bindings parts req acc) else None.
Proof.
  revert req acc. induction parts as [| part ps IH]; intros [| rp rs] acc Hlen;
    simpl in *; try done; try lia.
  unfold spec_seg_ok. destruct (has_colon_prefix part); simpl.
  - apply IH. lia.
  - destruct (String.eqb part rp); simpl; [apply IH; lia | done].
Qed.

Lemma spec_parts_match_length parts req :
  spec_parts_match parts req = true -> length parts = length req.
Proof.
  revert req. induction parts as [| part ps IH]; intros [| rp rs]; simpl; try done.
  intros H. apply andb_prop in H as [_ H]. f_equal. by apply IH.
Qed.

Lemma scan_params_spec cands req : scan_params cands req = spec_first_match cands req.
Proof.
  induction cands as [| pr rest IH]; simpl; [done |].
  destruct (Nat.eqb (length (pathParts pr)) (length req)) eqn:Hlen; simpl.
  - apply Nat.eqb_eq in Hlen. rewrite match_parts_spec by done.
    destruct (spec_parts_match (pathParts pr) req); done.
  - destruct (spec_parts_match (pathParts pr) req) eqn:Hm; [| done].
    apply spec_parts_match_length, Nat.eqb_eq in Hm. congruence.
Qed.

Lemma spec_first_match_Some cands req rt ps :
  spec_first_match cands req = Some (rt, ps) <->
  exists pre pr post,
    cands = pre ++ pr :: post /\
    Forall (fun q => spec_parts_match (pathParts q) req = false) pre /\
    spec_parts_match (pathParts pr) req = true /\
    rt = pr_route pr /\ ps = Some (spec_bindings (pathParts pr) req ∅).
Proof.
  induction cands as [| c rest IH]; simpl.
  - split; [done |]. intros (pre & pr & post & Heq & _). by destruct pre.
  - destruct (spec_parts_match (pathParts c) req) eqn:Hc.
    + split.
      * intros [= <- <-]. exists [], c, rest. auto.
      * intros (pre & pr & post & Heq & Hpre & Hpr & -> & ->).
        destruct pre as [| q pre]; simpl in Heq; injection Heq as <- Heq; [done |].
        inversion Hpre; congruence.
    + rewrite IH. split.
      * intros (pre & pr & post & -> & Hpre & Hpr & Hrt & Hps).
        exists (c :: pre), pr, post. repeat split; auto.
      * intros (pre & pr & post & Heq & Hpre & Hpr & Hrt & Hps).
        destruct pre as [| q pre]; simpl in Heq; injection Heq as <- Heq; [congruence |].
        inversion Hpre; subst. exists pre, pr, post. auto.
Qed.

Lemma spec_first_match_None cands req :
  spec_first_match cands req = None <->
  Forall (fun q => spec_parts_match (pathParts q) req = false) cands.
Proof.
  induction cands as [| c rest IH]; simpl; [split; auto |].
  destruct (spec_parts_match (pathParts c) req) eqn:Hc.
  - split; [done |]. intros H. inversion H; congruence.
  - rewrite IH. split; [auto | intros H; by inversion H].
Qed.

(** C1: a static route registered for (method, path) is what [find]
    returns for exactly that method and path, with no parameter bindings
    (a nil map), whatever routes were registered before it (any router
    [r], parameterized routes of the same shape included) and whatever is
    registered after it, as long as no later registration is again for
    that very (method, path). *)
Theorem C1_static_route_found (r : Router) (m p : string) (h : HandlerFunc) (mws : slice)
  (later : list registration) :
  hasParams p = false ->
  Forall (fun x : registration => x.1.1.1 <> m \/ x.1.1.2 <> p) later ->
  find (register_all (addWithMiddleware r m p h mws) later) m p =
    Some ({| handler := h; middlewares := mws |}, None).
Proof.
  intros Hp Hlater. unfold find.
  erewrite register_all_static_kept; [done | | done].
  by apply static_lookup_add_static.
Qed.

Lemma C1_static_route_found_witness :
  hasParams "/users/new" = false /\
  Forall (fun x : registration => x.1.1.1 <> "GET" \/ x.1.1.2 <> "/users/new")
    [("GET", "/users/:name", trace_handler "q", nil_slice)] /\
  find (register_all
          (addWithMiddleware
             (addWithMiddleware NewRouter "GET" "/users/:id" (trace_handler "p") nil_slice)
             "GET" "/users/new" (trace_handler "s") nil_slice)
          [("GET", "/users/:name", trace_handler "q", nil_slice)])
       "GET" "/users/new" =
    Some ({| handler := trace_handler "s"; middlewares := nil_slice |}, None).
Proof.
  assert (Hl : Forall (fun x : registration => x.1.1.1 <> "GET" \/ x.1.1.2 <> "/users/new")
                 [("GET", "/users/:name", trace_handler "q", nil_slice)]).
  { constructor; [simpl; right; discriminate | constructor]. }
  split; [reflexivity |]. split; [exact Hl |].
  apply C1_static_route_found; [reflexivity | exact Hl].
Defined.

(** C2: when [(method, path)] has no static route, [find] returns exactly
    the earliest parameterized route of that method (in registration
    order) whose segments match the request's segments one for one (same
    count; a [:]-prefixed segment matches anything, any other segment must
    be byte-wise equal), with the bindings of each capture name to its
    request segment; when no candidate matches it returns nothing. *)
Theorem C2_find_param_first_match (r : Router) (m p : string) (rt : route)
  (ps : option (gmap string string)) :
  static_lookup r m p = None ->
  (find r m p = Some (rt, ps) <->
   exists pre pr post,
     default [] (paramRoutes r !! m) = pre ++ pr :: post /\
     Forall (fun q => spec_parts_match (pathParts q) (split_path p) = false) pre /\
     spec_parts_match (pathParts pr) (split_path p) = true /\
     rt = pr_route pr /\ ps = Some (spec_bindings (pathParts pr) (split_path p) ∅)) /\
  (find r m p = None <->
   Forall (fun q => spec_parts_match (pathParts q) (split_path p) = false)
     (default [] (paramRoutes r !! m))).
Proof.
  intros Hs. unfold find. rewrite Hs, scan_params_spec.
  split; [apply spec_first_match_Some | apply spec_first_match_None].
Qed.

Lemma C2_find_param_first_match_witness :
  let r := register_all NewRouter
             [("GET", "/param/:x/q/:y", trace_handler "first", nil_slice);
              ("GET", "/param/:param1/p/:param2", trace_handler "second", nil_slice);
              ("GET", "/param/:a/:b/:c", trace_handler "third", nil_slice)] in
  static_lookup r "GET" "/param/abcd/p/efgh" = None /\
  find r "GET" "/param/abcd/p/efgh" =
    Some ({| handler := trace_handler "second"; middlewares := nil_slice |},
          Some (<["param2" := "efgh"]> (<["param1" := "abcd"]> ∅))).
Proof.
  intros r.
  assert (Hs : static_lookup r "GET" "/param/abcd/p/efgh" = None) by reflexivity.
  split; [exact Hs |].
  apply (proj1 (C2_find_param_first_match r "GET" "/param/abcd/p/efgh" _ _ Hs)).
  exists [{| pathParts := ["param"; ":x"; "q"; ":y"];
             pr_route := {| handler := trace_handler "first"; middlewares := nil_slice |} |}].
  eexists _, _. split; [reflexivity |].
  split; [constructor; [reflexivity | constructor] |].
  split; [reflexivity |]. split; reflexivity.
Defined.

(** ** Slices and their backing arrays *)

Lemma firstn_cells_write cells len xs :
  (len <= length cells)%nat ->
  firstn (len + length xs) (cells_write cells len xs) = firstn len cells ++ xs /\
  firstn len (cells_write cells len xs) = firstn len cells /\
  (len + length xs <= length (cells_write cells len xs))%nat.
Proof.
  intros Hle. unfold cells_write.
  assert (Hf : length (firstn len cells) = len) by (rewrite length_firstn; lia).
  split; [| split].
  - rewrite firstn_app, Hf, (firstn_all2 (firstn len cells)) by lia.
    replace (len + length xs - len)%nat with (length xs) by lia.
    rewrite firstn_app, (firstn_all2 xs), Nat.sub_diag by lia. simpl. by rewrite app_nil_r.
  - rewrite firstn_app, Hf, Nat.sub_diag, (firstn_all2 (firstn len cells)) by lia.
    simpl. by rewrite app_nil_r.
  - rewrite !length_app, Hf. lia.
Qed.

Lemma slice_read_length h s : slice_wf h s -> length (slice_read h s) = s_len s.
Proof.
  unfold slice_wf, slice_read. destruct (s_arr s) as [a |].
  - intros (_ & cells & Hc & Hle). rewrite Hc. simpl. rewrite length_firstn. lia.
  - intros [-> _]. done.
Qed.

Lemma slice_wf_fresh h (cells : list Middleware) s :
  heap_wf h -> slice_wf h s ->
  slice_wf {| h_next := S (h_next h); h_arrays := <[h_next h := cells]> (h_arrays h) |} s.
Proof.
  unfold slice_wf. destruct (s_arr s) as [b |]; [| done].
  intros Hh (Hb & cs & Hc & Hle). simpl. split; [lia |].
  exists cs. rewrite lookup_insert_ne by lia. done.
Qed.

(** What [append] gives: the new slice reads the old elements followed by
    the new ones, the old slice still reads what it read, the heap stays
    well formed, and any slice on another backing array is untouched. *)
Lemma slice_append_spec h s xs :
  heap_wf h -> slice_wf h s ->
  let '(h', s') := slice_append h s xs in
  slice_read h' s' = slice_read h s ++ xs /\
  slice_read h' s = slice_read h s /\
  heap_wf h' /\ slice_wf h' s' /\ (h_next h <= h_next h')%nat /\
  (s_arr s' = s_arr s \/ s_arr s' = Some (h_next h)) /\
  (forall t, slice_wf h t -> (forall a, s_arr s = Some a -> s_arr t <> Some a) ->
             slice_read h' t = slice_read h t /\ slice_wf h' t).
Proof.
  intros Hh Hs. unfold slice_append.
  destruct xs as [| x xs']; [rewrite app_nil_r; repeat split; auto |].
  remember (x :: xs') as xs eqn:Hxs.
  destruct (Nat.leb (s_len s + length xs) (s_cap s)) eqn:Hcap.
  - destruct (s_arr s) as [a |] eqn:Ha; cycle 1.
    { unfold slice_wf in Hs. rewrite Ha in Hs. destruct Hs as [Hl Hc].
      apply Nat.leb_le in Hcap. subst xs. simpl in Hcap. lia. }
    pose proof Hs as Hs'. unfold slice_wf in Hs'. rewrite Ha in Hs'.
    destruct Hs' as (Hlt & cells & Hc & Hle). rewrite Hc. simpl.
    destruct (firstn_cells_write cells (s_len s) xs Hle) as (H1 & H2 & H3).
    unfold slice_read; simpl. rewrite Ha, lookup_insert_eq. simpl.
    split; [rewrite H1, Hc; done |].
    split; [rewrite H2, Hc; done |].
    split; [intros b Hb; simpl in *; rewrite lookup_insert_ne by lia; by apply Hh |].
    split.
    { unfold slice_wf; simpl. split; [lia |].
      exists (cells_write cells (s_len s) xs). rewrite lookup_insert_eq. split; [done | lia]. }
    split; [lia |]. split; [auto |].
    intros t Ht Hne. specialize (Hne a eq_refl).
    unfold slice_wf in Ht |- *. simpl.
    destruct (s_arr t) as [b |]; [| done].
    assert (b <> a) by congruence.
    rewrite lookup_insert_ne by congruence. done.
  - simpl. unfold slice_read at 1. simpl. rewrite lookup_insert_eq. simpl.
    pose proof (slice_read_length h s Hs) as Hlen.
    split.
    { rewrite firstn_all2; [done |]. rewrite length_app, Hlen. lia. }
    split.
    { unfold slice_read. destruct (s_arr s) as [a |] eqn:Ha; [| done]. simpl.
      unfold slice_wf in Hs. rewrite Ha in Hs. destruct Hs as [Hlt _].
      rewrite lookup_insert_ne by lia. done. }
    split; [intros b Hb; simpl in *; rewrite lookup_insert_ne by lia; apply Hh; lia |].
    split.
    { unfold slice_wf; simpl. split; [lia |]. eexists. rewrite lookup_insert_eq.
      split; [done |]. rewrite length_app, Hlen. lia. }
    split; [simpl; lia |]. split; [auto |].
    intros t Ht _. split; [| by apply slice_wf_fresh].
    unfold slice_read. destruct (s_arr t) as [b |] eqn:Hb; [| done]. simpl.
    unfold slice_wf in Ht. rewrite Hb in Ht. destruct Ht as [Hlt _].
    rewrite lookup_insert_ne by lia. done.
Qed.

Lemma slice_lit_spec h xs :
  heap_wf h ->
  let '(h', s') := slice_lit h xs in
  slice_read h' s' = xs /\ heap_wf h' /\ slice_wf h' s' /\
  (forall t, slice_wf h t -> slice_read h' t = slice_read h t /\ slice_wf h' t).
Proof.
  intros Hh. destruct xs as [| x xs']; [repeat split; auto |].
  remember (x :: xs') as xs eqn:Hxs. rewrite Hxs. simpl. rewrite <- Hxs.
  split; [unfold slice_read; simpl; rewrite lookup_insert_eq; simpl; apply firstn_all2; subst xs; simpl; lia |].
  split; [intros b Hb; simpl in *; rewrite lookup_insert_ne by lia; apply Hh; lia |].
  split; [unfold slice_wf; simpl; split; [lia | eexists; rewrite lookup_insert_eq; split; [done | subst xs; simpl; lia]] |].
  intros t Ht. split; [| by apply slice_wf_fresh].
  unfold slice_read. destruct (s_arr t) as [b |] eqn:Hb; [| done]. simpl.
  unfold slice_wf in Ht. rewrite Hb in Ht. destruct Ht as [Hlt _].
  rewrite lookup_insert_ne by lia. done.
Qed.

Lemma append_each_spec h s xs n0 :
  heap_wf h -> slice_wf h s -> (forall a, s_arr s = Some a -> (n0 <= a)%nat) -> (n0 <= h_next h)%nat ->
  let '(h', s') := append_each h s xs in
  slice_read h' s' = slice_read h s ++ map wrapHandlerAsMiddleware xs /\
  heap_wf h' /\ slice_wf h' s' /\ (forall a, s_arr s' = Some a -> (n0 <= a)%nat) /\
  (n0 <= h_next h')%nat /\
  (forall t, slice_wf h t -> (forall a, s_arr t = Some a -> (a < n0)%nat) ->
             slice_read h' t = slice_read h t /\ slice_wf h' t).
Proof.
  revert h s. induction xs as [| x xs IH]; intros h s Hh Hs Hs0 Hn0.
  - simpl. rewrite app_nil_r. do 5 (split; [done |]). intros t Ht _. auto.
  - cbn [append_each]. pose proof (slice_append_spec h s [wrapHandlerAsMiddleware x] Hh Hs) as Hap.
    destruct (slice_append h s [wrapHandlerAsMiddleware x]) as [h1 s1].
    lazy beta iota zeta.
    destruct Hap as (Hr1 & _ & Hh1 & Hs1 & Hn1 & Harr1 & Hfr1).
    assert (Hs10 : forall a, s_arr s1 = Some a -> (n0 <= a)%nat).
    { intros a Ha. destruct Harr1 as [Harr1 | Harr1]; rewrite Harr1 in Ha; [by apply Hs0 | injection Ha; lia]. }
    specialize (IH h1 s1 Hh1 Hs1 Hs10 ltac:(lia)).
    destruct (append_each h1 s1 xs) as [h2 s2].
    destruct IH as (Hr2 & Hh2 & Hs2 & Hs20 & Hn2 & Hfr2).
    split; [rewrite Hr2, Hr1, <- app_assoc; done |].
    do 4 (split; [done |]).
    intros t Ht Htn.
    destruct (Hfr1 t Ht) as [Ht1 Hwf1].
    { intros a Ha Hta. apply Hs0 in Ha. apply Htn in Hta. lia. }
    destruct (Hfr2 t Hwf1 Htn) as [Ht2 Hwf2]. rewrite Ht2, Ht1. done.
Qed.

(** ** Middleware composition *)

Lemma wrap_all_app (l1 l2 : list Middleware) (h : HandlerFunc) :
  wrap_all (l1 ++ l2) h = wrap_all l1 (wrap_all l2 h).
Proof. unfold wrap_all. by rewrite fold_right_app. Qed.

(** C3 (the defect): with a group whose middleware slice has spare
    capacity (three [Use] calls of one middleware each leave length 3 and
    capacity 4), registering a second route with a handler before its last
    one overwrites the first route's route-specific middleware: a request
    for [/g/x] runs [a], [b], [c], then the handler [2] given for [/g/y],
    then [X]; the handler [1] given for [/g/x] never runs. *)
Theorem C3_group_route_middleware_overwritten :
  response_body (handle group_scenario fresh_transport (mkReq "GET" "/g/x")) = "abc2X" /\
  response_body (handle group_scenario fresh_transport (mkReq "GET" "/g/x")) <> "abc1X".
Proof. split; vm_compute; [reflexivity | discriminate]. Qed.

(** ** Groups *)

(** C4: [g.Group(q, ms...)] returns a group whose prefix is the raw
    concatenation of [g]'s prefix and [q] and whose middleware list, read
    when the call returns, is [g]'s list followed by [ms]; [g]'s own list
    reads as before. In particular [Group("/api").Group("/admin")] has the
    prefix "/api/admin". *)
Theorem C4_group_nesting (e : Engine) (g : RouterGroup) (q : string) (ms : list Middleware) :
  heap_wf (e_heap e) -> slice_wf (e_heap e) (rg_middlewares g) ->
  (let '(e', g') := RouterGroup_Group e g q ms in
   prefix g' = sapp (prefix g) q /\
   slice_read (e_heap e') (rg_middlewares g') = slice_read (e_heap e) (rg_middlewares g) ++ ms /\
   slice_read (e_heap e') (rg_middlewares g) = slice_read (e_heap e) (rg_middlewares g) /\
   heap_wf (e_heap e') /\ slice_wf (e_heap e') (rg_middlewares g')) /\
  prefix (snd (RouterGroup_Group (fst (Engine_Group e "/api" [])) (snd (Engine_Group e "/api" []))
                 "/admin" [])) = "/api/admin".
Proof.
  intros Hh Hs. split; [| reflexivity].
  unfold RouterGroup_Group.
  pose proof (slice_append_spec (e_heap e) (rg_middlewares g) ms Hh Hs) as Hap.
  destruct (slice_append (e_heap e) (rg_middlewares g) ms) as [h' s'].
  destruct Hap as (Hr & Hold & Hh' & Hs' & _). simpl. auto.
Qed.

Lemma C4_group_nesting_witness :
  let '(e, g) := Engine_Group New "/api" [tracing_mw "a"] in
  heap_wf (e_heap e) /\ slice_wf (e_heap e) (rg_middlewares g) /\
  (let '(e', g') := RouterGroup_Group e g "/admin" [tracing_mw "b"] in
   prefix g' = sapp (prefix g) "/admin" /\
   slice_read (e_heap e') (rg_middlewares g') = slice_read (e_heap e) (rg_middlewares g) ++ [tracing_mw "b"] /\
   slice_read (e_heap e') (rg_middlewares g) = slice_read (e_heap e) (rg_middlewares g) /\
   heap_wf (e_heap e') /\ slice_wf (e_heap e') (rg_middlewares g')).
Proof.
  simpl.
  assert (Hh : heap_wf {| h_next := 1; h_arrays := <[0%nat := [tracing_mw "a"]]> ∅ |}).
  { intros b Hb. simpl in *. rewrite lookup_insert_ne by lia. apply lookup_empty. }
  assert (Hs : slice_wf {| h_next := 1; h_arrays := <[0%nat := [tracing_mw "a"]]> ∅ |}
                 {| s_arr := Some 0%nat; s_len := 1; s_cap := 1 |}).
  { split; [simpl; lia |]. eexists. split; [reflexivity | simpl; lia]. }
  split; [exact Hh |]. split; [exact Hs |].
  exact (proj1 (C4_group_nesting
                  (set_heap New {| h_next := 1; h_arrays := <[0%nat := [tracing_mw "a"]]> ∅ |})
                  {| prefix := "/api"; rg_middlewares := {| s_arr := Some 0%nat; s_len := 1; s_cap := 1 |} |}
                  "/admin" [tracing_mw "b"] Hh Hs)).
Defined.

(** ** Route registration *)

(** C5: a handler before the last one becomes a middleware that runs the
    handler, returns its error at once without calling [next] (the result
    does not depend on [next]), and otherwise returns what [next] returns;
    [addRoute] stores the last handler as the route's handler and, read
    when registration returns, the group's middleware followed by the
    adapted earlier handlers in their order as the route's middleware. *)
Theorem C5_handlers_as_route_middleware :
  (forall (h next : HandlerFunc) (c : Context),
     wrapHandlerAsMiddleware h next c =
       let '(c1, err) := h c in
       match err with
       | Some _ => (c1, err)
       | None => next c1
       end) /\
  (forall (e : Engine) (m p : string) (mws : slice) (h0 : HandlerFunc) (hs : list HandlerFunc),
     heap_wf (e_heap e) -> slice_wf (e_heap e) mws ->
     exists hp s',
       addRoute e m p mws (h0 :: hs) =
         ({| router := addWithMiddleware (router e) m p (List.last (h0 :: hs) h0) s';
             e_middlewares := e_middlewares e; errorHandler := errorHandler e; e_heap := hp |}, None) /\
       slice_read hp s' =
         slice_read (e_heap e) mws ++ map wrapHandlerAsMiddleware (removelast (h0 :: hs))).
Proof.
  split.
  - intros h next c. unfold wrapHandlerAsMiddleware.
    destruct (h c) as [c1 [err |]]; [done |].
    destruct (next c1) as [c2 [err2 |]]; done.
  - intros e m p mws h0 hs Hh Hs. unfold addRoute. lazy beta iota zeta.
    pose proof (append_each_spec (e_heap e) nil_slice (removelast (h0 :: hs)) (h_next (e_heap e))
                  Hh (conj eq_refl eq_refl) ltac:(discriminate) ltac:(lia)) as Hae.
    destruct (append_each (e_heap e) nil_slice (removelast (h0 :: hs))) as [h1 rm].
    lazy beta iota zeta.
    destruct Hae as (Hr1 & Hh1 & _ & _ & _ & Hfr1).
    destruct (Hfr1 mws Hs) as [Hm1 Hmwf1].
    { intros a Ha. unfold slice_wf in Hs. rewrite Ha in Hs. lia. }
    pose proof (slice_append_spec h1 mws (slice_read h1 rm) Hh1 Hmwf1) as Hap.
    destruct (slice_append h1 mws (slice_read h1 rm)) as [h2 all].
    destruct Hap as (Hr2 & _).
    exists h2, all. split; [reflexivity |].
    rewrite Hr2, Hr1, Hm1. done.
Qed.

Lemma C5_handlers_as_route_middleware_witness :
  heap_wf (e_heap New) /\ slice_wf (e_heap New) nil_slice /\
  exists hp s',
    addRoute New "GET" "/x" nil_slice (trace_handler "1" :: [trace_handler "X"]) =
      ({| router := addWithMiddleware (router New) "GET" "/x"
                      (List.last (trace_handler "1" :: [trace_handler "X"]) (trace_handler "1")) s';
          e_middlewares := e_middlewares New; errorHandler := errorHandler New; e_heap := hp |}, None) /\
    slice_read hp s' =
      slice_read (e_heap New) nil_slice
        ++ map wrapHandlerAsMiddleware (removelast (trace_handler "1" :: [trace_handler "X"])).
Proof.
  assert (Hh : heap_wf (e_heap New)) by (intros b _; apply lookup_empty).
  assert (Hs : slice_wf (e_heap New) nil_slice) by (split; reflexivity).
  split; [exact Hh |]. split; [exact Hs |].
  exact (proj2 C5_handlers_as_route_middleware New "GET" "/x" nil_slice
           (trace_handler "1") [trace_handler "X"] Hh Hs).
Defined.

(** C10: registering with no handler panics with "route must have at
    least one handler" before any state changes, through [addRoute] and
    through every registrar; with a handler it does not panic. *)
Theorem C10_addRoute_needs_a_handler (e : Engine) (m p : string) (mws : slice)
  (rg : RouterGroup) (path : string) :
  addRoute e m p mws [] = (e, Some "route must have at least one handler") /\
  RouterGroup_GET e rg path [] = (e, Some addRoute_panic) /\
  RouterGroup_POST e rg path [] = (e, Some addRoute_panic) /\
  RouterGroup_PUT e rg path [] = (e, Some addRoute_panic) /\
  RouterGroup_DELETE e rg path [] = (e, Some addRoute_panic) /\
  Engine_GET e path [] = (e, Some addRoute_panic) /\
  (forall hs : list HandlerFunc, hs <> [] -> snd (addRoute e m p mws hs) = None).
Proof.
  do 6 (split; [reflexivity |]).
  intros [| h0 hs] Hne; [done |].
  unfold addRoute. lazy beta iota zeta.
  destruct (append_each (e_heap e) nil_slice (removelast (h0 :: hs))) as [h1 rm].
  lazy beta iota zeta.
  destruct (slice_append h1 mws (slice_read h1 rm)) as [h2 all]. reflexivity.
Qed.

Lemma C10_addRoute_needs_a_handler_witness :
  [trace_handler "h"] <> [] /\
  snd (addRoute New "GET" "/hello" nil_slice [trace_handler "h"]) = None.
Proof.
  assert (Hne : [trace_handler "h"] <> []) by discriminate.
  split; [exact Hne |].
  exact (proj2 (proj2 (proj2 (proj2 (proj2 (proj2
           (C10_addRoute_needs_a_handler New "GET" "/hello" nil_slice rootGroup "/hello"))))))
           [trace_handler "h"] Hne).
Defined.

(** ** Dispatch and the error handler *)

Lemma sapp_assoc a b c : sapp a (sapp b c) = sapp (sapp a b) c.
Proof.
  unfold sapp. induction a as [| ch a IH].
  - reflexivity.
  - exact (f_equal (String ch) IH).
Qed.

Lemma json_encode_serverError msg :
  json_encode (serverError msg) = claimed_error_body (json_escape msg).
Proof.
  unfold serverError, claimed_error_body. cbn [json_encode]. unfold json_quote.
  change (json_escape "error") with "error".
  rewrite <- !sapp_assoc. reflexivity.
Qed.

(** A matched request runs global, then the route's stored middleware,
    then the handler; when the chain returns, an error goes to the error
    handler. *)
Lemma handle_found e w r rt ps :
  find (router e) (Method r) (URL_Path r) = Some (rt, ps) ->
  handle e w r =
    let '(c, err) := wrap_all (slice_read (e_heap e) (e_middlewares e) ++
                                slice_read (e_heap e) (middlewares rt)) (handler rt)
                       (set_Params (NewContext (newResponseWriter w) r) ps) in
    match tw_panic (ResponseWriter (Writer c)) with
    | Some _ => c
    | None =>
        match err with
        | Some msg => errorHandler e c msg
        | None => c
        end
    end.
Proof. intros Hf. unfold handle. rewrite Hf. unfold buildChain. by rewrite wrap_all_app. Qed.

Lemma sapp_length a b : String.length (sapp a b) = (String.length a + String.length b)%nat.
Proof. induction a as [| ch a IH]; simpl; [reflexivity | by rewrite IH]. Qed.

Lemma sapp_nil_r a : sapp a EmptyString = a.
Proof. induction a as [| ch a IH]; [reflexivity | exact (f_equal (String ch) IH)]. Qed.

Lemma header_Get_insert_ne h k k' v : k <> k' -> header_Get (<[k := v]> h) k' = header_Get h k'.
Proof. intros Hne. unfold header_Get. by rewrite lookup_insert_ne. Qed.

(** The first final [WriteHeader] on a writer with no declared
    Content-Length fixes the status and nothing else. *)
Lemma tw_WriteHeader_final w code :
  tw_panic w = None -> tw_wrote w = false -> valid_code code = true -> informational code = false ->
  header_Get (tw_header w) "Content-Length" = EmptyString ->
  tw_WriteHeader w code =
    {| tw_header := tw_header w; tw_wrote := true; tw_status := code; tw_interim := tw_interim w;
       tw_contentLength := -1; tw_written := tw_written w; tw_body := tw_body w; tw_panic := None |}.
Proof. intros Hp Hw Hv Hi Hc. unfold tw_WriteHeader. rewrite Hp, Hv, Hw, Hi, Hc. reflexivity. Qed.

(** Once a status that allows a body is sent, with no declared
    Content-Length, a [Write] appends all its bytes. *)
Lemma tw_Write_allowed w b :
  tw_panic w = None -> tw_wrote w = true -> tw_contentLength w = -1 ->
  bodyAllowedForStatus (tw_status w) = true ->
  tw_header (fst (tw_Write w b)) = tw_header w /\ tw_wrote (fst (tw_Write w b)) = true /\
  tw_status (fst (tw_Write w b)) = tw_status w /\ tw_contentLength (fst (tw_Write w b)) = -1 /\
  tw_panic (fst (tw_Write w b)) = None /\ tw_body (fst (tw_Write w b)) = sapp (tw_body w) b /\
  snd (tw_Write w b) = (Z.of_nat (String.length b), None).
Proof.
  intros Hp Hw Hc Hb. destruct w as [hd wr st it cl wn bd pn]; simpl in *; subst wr pn cl.
  unfold tw_Write, tw_WriteHeader; simpl.
  destruct (Z.eqb_spec (Z.of_nat (String.length b)) 0) as [H0 | H0].
  - destruct b; [| simpl in H0; lia]. simpl. rewrite sapp_nil_r. repeat split.
  - rewrite Hb. simpl. repeat split.
Qed.

(** [Context.JSON] on a response not yet started, with a final status
    that allows a body and no declared Content-Length. *)
Lemma Context_JSON_fresh c code v :
  tw_panic (ResponseWriter (Writer c)) = None -> tw_wrote (ResponseWriter (Writer c)) = false ->
  header_Get (tw_header (ResponseWriter (Writer c))) "Content-Length" = EmptyString ->
  valid_code code = true -> informational code = false -> bodyAllowedForStatus code = true ->
  response_status (fst (Context_JSON c code v)) = code /\
  rw_status (Writer (fst (Context_JSON c code v))) = code /\
  tw_header (ResponseWriter (Writer (fst (Context_JSON c code v)))) !! "Content-Type" =
    Some ["application/json"] /\
  response_body (fst (Context_JSON c code v)) = sapp (response_body c) (sapp (json_encode v) nl) /\
  tw_panic (ResponseWriter (Writer (fst (Context_JSON c code v)))) = None /\
  snd (Context_JSON c code v) = None.
Proof.
  intros Hp Hw Hc Hv Hi Hb.
  destruct c as [[[hd wr st it cl wn bd pn] rst rsz] req ps cst]. simpl in *. subst wr pn.
  unfold Context_JSON, response_status, response_body; simpl.
  unfold tw_Header_Set, rw_WriteHeader; simpl.
  rewrite (tw_WriteHeader_final
             (set_tw_header {| tw_header := hd; tw_wrote := false; tw_status := st; tw_interim := it;
                               tw_contentLength := cl; tw_written := wn; tw_body := bd; tw_panic := None |}
                (<["Content-Type" := ["application/json"]]> hd)) code);
    simpl; try done; [| by rewrite header_Get_insert_ne].
  destruct (tw_Write_allowed
              {| tw_header := <["Content-Type" := ["application/json"]]> hd; tw_wrote := true;
                 tw_status := code; tw_interim := it; tw_contentLength := -1;
                 tw_written := wn; tw_body := bd; tw_panic := None |}
              (sapp (json_encode v) nl)) as (H1 & _ & H3 & _ & H5 & H6 & H7); simpl; try done.
  destruct (tw_Write _ _) as [w2 [n err]]. simpl in *. injection H7 as -> ->.
  rewrite H1, H3, H5, H6. split; [done |]. split; [done |]. split; [apply lookup_insert_eq |]. auto.
Qed.

(** [Context.JSON] once the status is sent: the status and the header
    sent stay as they were. *)
Lemma Context_JSON_written c code v :
  tw_panic (ResponseWriter (Writer c)) = None -> tw_wrote (ResponseWriter (Writer c)) = true ->
  valid_code code = true ->
  response_status (fst (Context_JSON c code v)) = response_status c /\
  tw_header (ResponseWriter (Writer (fst (Context_JSON c code v)))) = tw_header (ResponseWriter (Writer c)).
Proof.
  intros Hp Hw Hv.
  destruct c as [[[hd wr st it cl wn bd pn] rst rsz] req ps cst]. simpl in *. subst wr pn.
  unfold Context_JSON, response_status; simpl.
  unfold tw_WriteHeader; rewrite Hv; simpl.
  unfold tw_Write, tw_WriteHeader; simpl.
  repeat case_match; simplify_eq/=; auto.
Qed.

Lemma defaultErrorHandler_fresh c msg :
  tw_panic (ResponseWriter (Writer c)) = None -> tw_wrote (ResponseWriter (Writer c)) = false ->
  header_Get (tw_header (ResponseWriter (Writer c))) "Content-Length" = EmptyString ->
  response_status (defaultErrorHandler c msg) = 400 /\
  rw_status (Writer (defaultErrorHandler c msg)) = 400 /\
  tw_header (ResponseWriter (Writer (defaultErrorHandler c msg))) !! "Content-Type" =
    Some ["application/json"] /\
  response_body (defaultErrorHandler c msg) =
    sapp (response_body c) (sapp (claimed_error_body (json_escape msg)) nl).
Proof.
  intros Hp Hw Hc. unfold defaultErrorHandler.
  destruct (Context_JSON_fresh c 400 (serverError msg) Hp Hw Hc) as (H1 & H2 & H3 & H4 & _);
    try reflexivity.
  rewrite H4, json_encode_serverError. auto.
Qed.

(** C6 (as the code has it): when the assembled chain of a matched
    request returns (no panic) with an error, the dispatcher's result is
    the configured error handler applied once to that error. The default
    handler sets Content-Type application/json, calls WriteHeader(400)
    and writes the encoded [{"error": msg}] followed by a newline
    (json.Encoder.Encode). So when nothing was written before (and no
    Content-Length was declared) the status is 400, the Content-Type is
    application/json and the body is [{"error":"<msg>"}] plus a trailing
    newline. When the status was already written, the response keeps its
    status and its header. For "user not found": 400 and
    [{"error":"user not found"}] then a newline. *)
Theorem C6_error_handler_once (e : Engine) (w : transport) (r : Request) (rt : route)
  (ps : option (gmap string string)) (c : Context) (err : error) :
  find (router e) (Method r) (URL_Path r) = Some (rt, ps) ->
  wrap_all (slice_read (e_heap e) (e_middlewares e) ++ slice_read (e_heap e) (middlewares rt))
    (handler rt) (set_Params (NewContext (newResponseWriter w) r) ps) = (c, Some err) ->
  tw_panic (ResponseWriter (Writer c)) = None ->
  handle e w r = errorHandler e c err /\
  (errorHandler e = defaultErrorHandler -> tw_wrote (ResponseWriter (Writer c)) = false ->
   header_Get (tw_header (ResponseWriter (Writer c))) "Content-Length" = EmptyString ->
   response_status (handle e w r) = 400 /\
   tw_header (ResponseWriter (Writer (handle e w r))) !! "Content-Type" = Some ["application/json"] /\
   response_body (handle e w r) = sapp (response_body c) (sapp (claimed_error_body (json_escape err)) nl)) /\
  (errorHandler e = defaultErrorHandler -> tw_wrote (ResponseWriter (Writer c)) = true ->
   response_status (handle e w r) = response_status c /\
   tw_header (ResponseWriter (Writer (handle e w r))) = tw_header (ResponseWriter (Writer c))) /\
  response_status (handle error_scenario fresh_transport (mkReq "GET" "/users/1")) = 400 /\
  response_body (handle error_scenario fresh_transport (mkReq "GET" "/users/1")) =
    sapp (claimed_error_body "user not found") nl.
Proof.
  intros Hf Hc Hp.
  assert (Hh : handle e w r = errorHandler e c err)
    by (rewrite (handle_found e w r rt ps Hf), Hc; simpl; rewrite Hp; done).
  split; [exact Hh |]. split; [| split].
  - intros He Hw Hcl. rewrite Hh, He.
    destruct (defaultErrorHandler_fresh c err Hp Hw Hcl) as (H1 & _ & H3 & H4). auto.
  - intros He Hw. rewrite Hh, He. unfold defaultErrorHandler.
    apply Context_JSON_written; auto.
  - split; vm_compute; reflexivity.
Qed.

Lemma C6_error_handler_once_witness :
  find (router error_scenario) "GET" "/users/1" =
    Some ({| handler := erroring_handler "user not found"; middlewares := nil_slice |}, None) /\
  wrap_all (slice_read (e_heap error_scenario) (e_middlewares error_scenario) ++
            slice_read (e_heap error_scenario) nil_slice)
    (erroring_handler "user not found")
    (set_Params (NewContext (newResponseWriter fresh_transport) (mkReq "GET" "/users/1")) None) =
    (set_Params (NewContext (newResponseWriter fresh_transport) (mkReq "GET" "/users/1")) None,
     Some "user not found") /\
  tw_panic (ResponseWriter (Writer
    (set_Params (NewContext (newResponseWriter fresh_transport) (mkReq "GET" "/users/1")) None))) = None /\
  handle error_scenario fresh_transport (mkReq "GET" "/users/1") =
    errorHandler error_scenario
      (set_Params (NewContext (newResponseWriter fresh_transport) (mkReq "GET" "/users/1")) None)
      "user not found".
Proof.
  assert (Hf : find (router error_scenario) "GET" "/users/1" =
    Some ({| handler := erroring_handler "user not found"; middlewares := nil_slice |}, None))
    by reflexivity.
  assert (Hc : wrap_all (slice_read (e_heap error_scenario) (e_middlewares error_scenario) ++
            slice_read (e_heap error_scenario) nil_slice)
    (erroring_handler "user not found")
    (set_Params (NewContext (newResponseWriter fresh_transport) (mkReq "GET" "/users/1")) None) =
    (set_Params (NewContext (newResponseWriter fresh_transport) (mkReq "GET" "/users/1")) None,
     Some "user not found")) by reflexivity.
  assert (Hp : tw_panic (ResponseWriter (Writer
    (set_Params (NewContext (newResponseWriter fresh_transport) (mkReq "GET" "/users/1")) None))) = None)
    by reflexivity.
  split; [exact Hf |]. split; [exact Hc |]. split; [exact Hp |].
  exact (proj1 (C6_error_handler_once error_scenario fresh_transport (mkReq "GET" "/users/1")
                  _ None _ "user not found" Hf Hc Hp)).
Defined.

(** C6 as stated fails: the default error handler's body for "user not
    found" is not [{"error":"user not found"}]; it has a trailing newline. *)
Lemma C6_body_is_not_the_bare_json :
  response_body (handle error_scenario fresh_transport (mkReq "GET" "/users/1")) <>
    claimed_error_body "user not found".
Proof. vm_compute. discriminate. Qed.

(** C8 (the defect): [Context.JSON] writes its body to the transport
    behind the wrapper, so the wrapper's byte count stays 0 after a 15-byte
    JSON response, while the [Context.Text] path counts its bytes. *)
Theorem C8_json_body_not_counted :
  rw_status (Writer (handle json_scenario fresh_transport (mkReq "GET" "/ping"))) = 200 /\
  rw_size (Writer (handle json_scenario fresh_transport (mkReq "GET" "/ping"))) = 0 /\
  Z.of_nat (String.length (response_body (handle json_scenario fresh_transport (mkReq "GET" "/ping")))) = 15 /\
  rw_size (Writer (handle text_scenario fresh_transport (mkReq "GET" "/ping"))) =
    Z.of_nat (String.length (response_body (handle text_scenario fresh_transport (mkReq "GET" "/ping")))).
Proof. vm_compute. repeat split. Qed.

(** ** Binding JSON *)

(** C7 (as the code has it): [BindJSON] first fails with "request body is
    empty" on a nil body; then, before reading the body, with the
    content-type error when the Content-Type header is missing or does not
    contain application/json, whatever the body; then with the read error
    when io.ReadAll fails (a truncated body, say); then with "empty json
    body" on a zero-byte body; otherwise its result is exactly
    json.Unmarshal's on the bytes read and the target. *)
Theorem C7_BindJSON_order {T : Type} (Unmarshal : string -> T -> T * option error)
  (c : Context) (v : T) :
  (Body (c_Request c) = None -> BindJSON Unmarshal c v = (v, Some err_body_nil)) /\
  (forall body, Body (c_Request c) = Some body ->
     Header (c_Request c) !! "Content-Type" = None ->
     BindJSON Unmarshal c v = (v, Some err_content_type)) /\
  (forall body, Body (c_Request c) = Some body ->
     contains (header_Get (Header (c_Request c)) "Content-Type") "application/json" = false ->
     BindJSON Unmarshal c v = (v, Some err_content_type)) /\
  (forall body e, Body (c_Request c) = Some body -> body_err body = Some e ->
     contains (header_Get (Header (c_Request c)) "Content-Type") "application/json" = true ->
     BindJSON Unmarshal c v = (v, Some e)) /\
  (forall body, Body (c_Request c) = Some body -> body_err body = None ->
     body_data body = EmptyString ->
     contains (header_Get (Header (c_Request c)) "Content-Type") "application/json" = true ->
     BindJSON Unmarshal c v = (v, Some err_empty_json)) /\
  (forall body, Body (c_Request c) = Some body -> body_err body = None ->
     body_data body <> EmptyString ->
     contains (header_Get (Header (c_Request c)) "Content-Type") "application/json" = true ->
     BindJSON Unmarshal c v = Unmarshal (body_data body) v).
Proof.
  unfold BindJSON, io_ReadAll. split; [| split; [| split; [| split; [| split]]]].
  - intros ->. done.
  - intros body -> Hh. unfold header_Get. rewrite Hh. done.
  - intros body -> Hct. rewrite Hct. done.
  - intros body e -> He Hct. rewrite Hct, He. destruct body; done.
  - intros body -> He Hd Hct. rewrite Hct. destruct body as [d er]; simpl in *. by subst.
  - intros body -> He Hne Hct. rewrite Hct. destruct body as [d er]; simpl in *. subst er.
    destruct d; [done | reflexivity].
Qed.

Lemma C7_BindJSON_order_witness :
  let c := with_body_and_header (<["Content-Type" := ["application/json"]]> ∅)
             (Some (full_body "{}")) in
  Body (c_Request c) = Some (full_body "{}") /\ body_err (full_body "{}") = None /\
  body_data (full_body "{}") <> EmptyString /\
  contains (header_Get (Header (c_Request c)) "Content-Type") "application/json" = true /\
  BindJSON (fun _ (v : nat) => (S v, None)) c 0%nat = (1%nat, None).
Proof.
  intros c.
  assert (Hb : Body (c_Request c) = Some (full_body "{}")) by reflexivity.
  assert (He : body_err (full_body "{}") = None) by reflexivity.
  assert (Hne : body_data (full_body "{}") <> EmptyString) by discriminate.
  assert (Hct : contains (header_Get (Header (c_Request c)) "Content-Type") "application/json" = true)
    by reflexivity.
  split; [exact Hb |]. split; [exact He |]. split; [exact Hne |]. split; [exact Hct |].
  exact (proj2 (proj2 (proj2 (proj2 (proj2 (C7_BindJSON_order (fun _ (v : nat) => (S v, None)) c 0%nat)))))
           (full_body "{}") Hb He Hne Hct).
Defined.

(** C7 as stated fails: a present zero-byte body without a Content-Type
    header gets the content-type error, not the empty-body error. *)
Lemma C7_empty_body_gets_content_type_error :
  snd (BindJSON (fun _ (v : unit) => (v, None))
         (with_body_and_header ∅ (Some (full_body EmptyString))) tt)
    = Some err_content_type /\
  snd (BindJSON (fun _ (v : unit) => (v, None))
         (with_body_and_header ∅ (Some (full_body EmptyString))) tt)
    <> Some err_empty_json.
Proof. split; vm_compute; [reflexivity | discriminate]. Qed.

(** ** Query helpers *)

(** C9: for a key absent from the parsed query, [QueryInt] gives [(0,
    nil)] and [QueryBool] gives [(false, nil)], the same as for the values
    "0" and "false"; an error only comes for a key present with a first
    value that is non-empty and that strconv rejects. *)
Theorem C9_missing_query_key (c : Context) (key : string) :
  (ParseQuery (URL_RawQuery (c_Request c)) !! key = None ->
     QueryInt c key = (0, None) /\ QueryBool c key = (false, None)) /\
  (Query c key = "0" -> QueryInt c key = (0, None)) /\
  (Query c key = "false" -> QueryBool c key = (false, None)) /\
  (forall n err, QueryInt c key = (n, Some err) ->
     exists v vs, ParseQuery (URL_RawQuery (c_Request c)) !! key = Some (v :: vs) /\
                  v <> EmptyString /\ snd (Atoi v) = Some err) /\
  (forall b err, QueryBool c key = (b, Some err) ->
     exists v vs, ParseQuery (URL_RawQuery (c_Request c)) !! key = Some (v :: vs) /\
                  v <> EmptyString /\ snd (ParseBool v) = Some err).
Proof.
  unfold QueryInt, QueryBool, Query, values_Get.
  split; [| split; [| split; [| split]]].
  - intros H. rewrite H. done.
  - intros ->. done.
  - intros ->. done.
  - intros n err.
    destruct (ParseQuery (URL_RawQuery (c_Request c)) !! key) as [[| v vs] |]; try done.
    destruct (String.eqb v EmptyString) eqn:Hv; [done |].
    intros Ha. exists v, vs. split; [done |]. split.
    + intros ->. done.
    + by rewrite Ha.
  - intros b err.
    destruct (ParseQuery (URL_RawQuery (c_Request c)) !! key) as [[| v vs] |]; try done.
    destruct (String.eqb v EmptyString) eqn:Hv; [done |].
    intros Ha. exists v, vs. split; [done |]. split.
    + intros ->. done.
    + by rewrite Ha.
Qed.

Lemma C9_missing_query_key_witness :
  ParseQuery (URL_RawQuery (c_Request (ctx_with_query "page=5&on=true"))) !! "size" = None /\
  QueryInt (ctx_with_query "page=5&on=true") "size" = (0, None) /\
  QueryBool (ctx_with_query "page=5&on=true") "size" = (false, None).
Proof.
  assert (H : ParseQuery (URL_RawQuery (c_Request (ctx_with_query "page=5&on=true"))) !! "size" = None)
    by reflexivity.
  split; [exact H |].
  exact (proj1 (C9_missing_query_key (ctx_with_query "page=5&on=true") "size") H).
Defined.

(* ================================================================== *)
(** * Further properties of the code *)

(** ** Routing *)

Lemma paramRoutes_add_other r m m' p' h s :
  m' <> m -> paramRoutes (addWithMiddleware r m' p' h s) !! m = paramRoutes r !! m.
Proof.
  intros Hne. unfold addWithMiddleware.
  destruct (hasParams p'); simpl; [by rewrite lookup_insert_ne | done].
Qed.

Lemma scan_params_app_Some l l' req x :
  scan_params l req = Some x -> scan_params (l ++ l') req = Some x.
Proof.
  induction l as [| pr l IH]; simpl; [done |].
  destruct (negb (Nat.eqb (length (pathParts pr)) (length req))); [exact IH |].
  destruct (match_parts (pathParts pr) req ∅); [done | exact IH].
Qed.

(** Routes are kept per method: registering a route for one method never
    changes what [find] gives for any other method (a HEAD or OPTIONS
    request is not served by a GET route). *)
Theorem find_other_method_unchanged (r : Router) (m p m' p' : string) (h : HandlerFunc) (s : slice) :
  m' <> m -> find (addWithMiddleware r m' p' h s) m p = find r m p.
Proof.
  intros Hne. unfold find.
  rewrite static_lookup_add_other by (left; exact Hne).
  by rewrite paramRoutes_add_other.
Qed.

Lemma find_other_method_unchanged_witness :
  "GET" <> "HEAD" /\
  find (addWithMiddleware NewRouter "GET" "/hello" (trace_handler "h") nil_slice) "HEAD" "/hello" =
    find NewRouter "HEAD" "/hello".
Proof.
  assert (Hne : "GET" <> "HEAD") by discriminate.
  split; [exact Hne |].
  exact (find_other_method_unchanged NewRouter "HEAD" "/hello" "GET" "/hello" (trace_handler "h") nil_slice Hne).
Defined.

(** Registration never takes a match away: a request that [find] already
    resolves resolves to the same route and bindings after any further
    registration, except a static one for exactly its method and path. In
    particular a parameterized route registered after another one with the
    same pattern is never reached. *)
Theorem find_kept_by_later_registration (r : Router) (m p m' p' : string) (h : HandlerFunc) (s : slice)
  (x : route * option (gmap string string)) :
  find r m p = Some x ->
  hasParams p' = true \/ m' <> m \/ p' <> p ->
  find (addWithMiddleware r m' p' h s) m p = Some x.
Proof.
  intros Hf Hcase. unfold find in *.
  destruct (hasParams p') eqn:Hp.
  - assert (Hs : static_lookup (addWithMiddleware r m' p' h s) m p = static_lookup r m p)
      by (unfold static_lookup, addWithMiddleware; rewrite Hp; reflexivity).
    rewrite Hs. destruct (static_lookup r m p); [done |].
    destruct (decide (m' = m)) as [-> | Hm].
    + unfold addWithMiddleware. rewrite Hp. simpl. rewrite lookup_insert_eq. simpl.
      by apply scan_params_app_Some.
    + by rewrite paramRoutes_add_other.
  - destruct Hcase as [Hc | Hc]; [done |].
    rewrite static_lookup_add_other by (destruct Hc; auto).
    unfold addWithMiddleware. rewrite Hp. exact Hf.
Qed.

Lemma find_kept_by_later_registration_witness :
  let r := addWithMiddleware NewRouter "GET" "/users/:id" (trace_handler "first") nil_slice in
  find r "GET" "/users/7" =
    Some ({| handler := trace_handler "first"; middlewares := nil_slice |}, Some (<["id" := "7"]> ∅)) /\
  (hasParams "/users/:name" = true \/ "GET" <> "GET" \/ "/users/:name" <> "/users/7") /\
  find (addWithMiddleware r "GET" "/users/:name" (trace_handler "second") nil_slice) "GET" "/users/7" =
    Some ({| handler := trace_handler "first"; middlewares := nil_slice |}, Some (<["id" := "7"]> ∅)).
Proof.
  intros r.
  assert (Hf : find r "GET" "/users/7" =
    Some ({| handler := trace_handler "first"; middlewares := nil_slice |}, Some (<["id" := "7"]> ∅)))
    by reflexivity.
  assert (Hc : hasParams "/users/:name" = true \/ "GET" <> "GET" \/ "/users/:name" <> "/users/7")
    by (left; reflexivity).
  split; [exact Hf |]. split; [exact Hc |].
  exact (find_kept_by_later_registration r "GET" "/users/7" "GET" "/users/:name"
           (trace_handler "second") nil_slice _ Hf Hc).
Defined.

(** *** Slashes around a path *)

Lemma sapp_cons c r t : sapp (String c r) t = String c (sapp r t).
Proof. reflexivity. Qed.

Lemma trim_left_slash_snoc s :
  trim_left_slash (sapp s "/") =
    if String.eqb (trim_left_slash s) EmptyString then EmptyString else sapp (trim_left_slash s) "/".
Proof.
  induction s as [| c r IH]; [reflexivity |].
  rewrite sapp_cons. cbn [trim_left_slash].
  destruct (Ascii.eqb c "/"%char); [exact IH | reflexivity].
Qed.

Lemma list_ascii_of_string_app s t :
  list_ascii_of_string (sapp s t) = list_ascii_of_string s ++ list_ascii_of_string t.
Proof.
  unfold sapp. induction s as [| c r IH]; [reflexivity |].
  exact (f_equal (cons c) IH).
Qed.

Lemma string_rev_snoc s : string_rev (sapp s "/") = String "/"%char (string_rev s).
Proof.
  unfold string_rev. rewrite list_ascii_of_string_app. simpl. rewrite rev_app_distr. reflexivity.
Qed.

Lemma trim_slash_snoc s : trim_slash (sapp s "/") = trim_slash s.
Proof.
  unfold trim_slash. rewrite trim_left_slash_snoc.
  destruct (String.eqb (trim_left_slash s) EmptyString) eqn:He.
  - apply String.eqb_eq in He. rewrite He. reflexivity.
  - rewrite string_rev_snoc. reflexivity.
Qed.

Lemma trim_slash_cons s : trim_slash (String "/"%char s) = trim_slash s.
Proof. reflexivity. Qed.

Lemma split_path_outer_slashes p : split_path (String "/"%char (sapp p "/")) = split_path p.
Proof. unfold split_path. by rewrite trim_slash_cons, trim_slash_snoc. Qed.

(** Parameterized matching ignores slashes around the path: when neither
    form has a static route, [/p/] is routed as [p] is (so [/users/42/]
    and [users/42] reach [/users/:id] as [/users/42] does), while static
    routes are looked up by the exact path. *)
Theorem find_param_ignores_outer_slashes (r : Router) (m p : string) :
  static_lookup r m p = None ->
  static_lookup r m (String "/"%char (sapp p "/")) = None ->
  find r m (String "/"%char (sapp p "/")) = find r m p.
Proof.
  intros H1 H2. unfold find. rewrite H1, H2. by rewrite split_path_outer_slashes.
Qed.

Lemma find_param_ignores_outer_slashes_witness :
  let r := addWithMiddleware NewRouter "GET" "/users/:id" (trace_handler "u") nil_slice in
  static_lookup r "GET" "/users/42" = None /\
  static_lookup r "GET" (String "/"%char (sapp "/users/42" "/")) = None /\
  find r "GET" (String "/"%char (sapp "/users/42" "/")) = find r "GET" "/users/42".
Proof.
  intros r.
  assert (H1 : static_lookup r "GET" "/users/42" = None) by reflexivity.
  assert (H2 : static_lookup r "GET" (String "/"%char (sapp "/users/42" "/")) = None) by reflexivity.
  split; [exact H1 |]. split; [exact H2 |].
  exact (find_param_ignores_outer_slashes r "GET" "/users/42" H1 H2).
Defined.

Lemma trim_left_slash_noslash s : contains_char "/"%char s = false -> trim_left_slash s = s.
Proof.
  destruct s as [| c r]; [done |]. simpl. intros H.
  apply orb_false_iff in H as [H _]. by rewrite H.
Qed.

Lemma contains_char_list c l :
  contains_char c (string_of_list_ascii l) = existsb (fun x => Ascii.eqb x c) l.
Proof. induction l as [| x l IH]; simpl; [done | by rewrite IH]. Qed.

Lemma contains_char_rev c s : contains_char c (string_rev s) = contains_char c s.
Proof.
  unfold string_rev. rewrite contains_char_list.
  rewrite <- (string_of_list_ascii_of_string s) at 2. rewrite contains_char_list.
  induction (list_ascii_of_string s) as [| x l IH]; simpl; [done |].
  rewrite existsb_app, IH. simpl. by rewrite orb_false_r, orb_comm.
Qed.

Lemma string_rev_involutive s : string_rev (string_rev s) = s.
Proof.
  unfold string_rev. rewrite list_ascii_of_string_of_list_ascii, rev_involutive.
  apply string_of_list_ascii_of_string.
Qed.

Lemma trim_slash_noslash s : contains_char "/"%char s = false -> trim_slash (String "/"%char s) = s.
Proof.
  intros H. rewrite trim_slash_cons. unfold trim_slash.
  rewrite (trim_left_slash_noslash s H).
  rewrite trim_left_slash_noslash by (by rewrite contains_char_rev).
  apply string_rev_involutive.
Qed.

Lemma split_on_noslash s : contains_char "/"%char s = false -> split_on "/"%char s = [s].
Proof.
  induction s as [| c r IH]; [done |]. simpl. intros H.
  apply orb_false_iff in H as [Hc Hr]. rewrite IH by done. by rewrite Hc.
Qed.

(** A pattern made of one capture, [/:name], matches every request path
    of one segment, the root path [/] included (its single segment is
    empty): [name] is bound to the segment. *)
Theorem find_single_capture (r : Router) (m name v : string) (h : HandlerFunc) (s : slice) :
  contains_char "/"%char name = false -> contains_char "/"%char v = false ->
  paramRoutes r !! m = None -> static_lookup r m (String "/"%char v) = None ->
  find (addWithMiddleware r m (String "/"%char (String ":"%char name)) h s) m (String "/"%char v) =
    Some ({| handler := h; middlewares := s |}, Some (<[name := v]> ∅)).
Proof.
  intros Hn Hv Hp Hs.
  assert (Hname : contains_char "/"%char (String ":"%char name) = false) by (simpl; exact Hn).
  unfold find, addWithMiddleware.
  replace (hasParams (String "/"%char (String ":"%char name))) with true by reflexivity.
  simpl negb. cbv iota.
  unfold static_lookup in *. simpl. rewrite Hs.
  rewrite lookup_insert_eq, Hp. simpl.
  unfold split_path. rewrite !trim_slash_noslash by done.
  rewrite !split_on_noslash by done. reflexivity.
Qed.

Lemma find_single_capture_witness :
  contains_char "/"%char "id" = false /\ contains_char "/"%char "" = false /\
  paramRoutes NewRouter !! "GET" = None /\ static_lookup NewRouter "GET" "/" = None /\
  find (addWithMiddleware NewRouter "GET" "/:id" (trace_handler "u") nil_slice) "GET" "/" =
    Some ({| handler := trace_handler "u"; middlewares := nil_slice |}, Some (<["id" := ""]> ∅)).
Proof.
  assert (H1 : contains_char "/"%char "id" = false) by reflexivity.
  assert (H2 : contains_char "/"%char "" = false) by reflexivity.
  assert (H3 : paramRoutes NewRouter !! "GET" = None) by reflexivity.
  assert (H4 : static_lookup NewRouter "GET" "/" = None) by reflexivity.
  do 4 (split; [assumption |]).
  exact (find_single_capture NewRouter "GET" "id" "" (trace_handler "u") nil_slice H1 H2 H3 H4).
Defined.

(** ** Dispatch *)

(** [http.Error] on a response not yet started, with a final status that
    allows a body. *)
Lemma http_Error_fresh w msg code :
  tw_panic w = None -> tw_wrote w = false ->
  valid_code code = true -> informational code = false -> bodyAllowedForStatus code = true ->
  tw_status (http_Error w msg code) = code /\
  tw_body (http_Error w msg code) = sapp (tw_body w) (sapp msg nl) /\
  tw_header (http_Error w msg code) !! "Content-Type" = Some ["text/plain; charset=utf-8"] /\
  tw_header (http_Error w msg code) !! "X-Content-Type-Options" = Some ["nosniff"] /\
  tw_panic (http_Error w msg code) = None.
Proof.
  intros Hp Hw Hv Hi Hb. destruct w as [hd wr st it cl wn bd pn]; simpl in *; subst wr pn.
  unfold http_Error, tw_Header_Del, tw_Header_Set; simpl.
  rewrite tw_WriteHeader_final; simpl; try done.
  2:{ rewrite !header_Get_insert_ne by discriminate. unfold header_Get.
      by rewrite lookup_delete_eq. }
  destruct (tw_Write_allowed
    {| tw_header := <["X-Content-Type-Options" := ["nosniff"]]>
                      (<["Content-Type" := ["text/plain; charset=utf-8"]]> (delete "Content-Length" hd));
       tw_wrote := true; tw_status := code; tw_interim := it; tw_contentLength := -1;
       tw_written := wn; tw_body := bd; tw_panic := None |} (sapp msg nl))
    as (H1 & _ & H3 & _ & H5 & H6 & _); simpl; try done.
  rewrite H1, H3, H5, H6. simpl.
  split; [done |]. split; [done |]. split; [| split; [apply lookup_insert_eq | done]].
  rewrite lookup_insert_ne by discriminate. apply lookup_insert_eq.
Qed.

(** An unmatched request gets [http.NotFound] on the server's writer: 404,
    [Content-Type: text/plain; charset=utf-8], [X-Content-Type-Options:
    nosniff] and the body [404 page not found] with a newline. No
    middleware, handler or error handler runs (the outcome depends on the
    router alone), and the wrapper never sees the response: it still
    records status 200 and size 0. *)
Theorem handle_not_found (e : Engine) (w : transport) (r : Request) :
  find (router e) (Method r) (URL_Path r) = None -> tw_panic w = None -> tw_wrote w = false ->
  response_status (handle e w r) = 404 /\
  response_body (handle e w r) = sapp (tw_body w) (sapp "404 page not found" nl) /\
  tw_header (ResponseWriter (Writer (handle e w r))) !! "Content-Type" = Some ["text/plain; charset=utf-8"] /\
  tw_header (ResponseWriter (Writer (handle e w r))) !! "X-Content-Type-Options" = Some ["nosniff"] /\
  rw_status (Writer (handle e w r)) = 200 /\ rw_size (Writer (handle e w r)) = 0 /\
  (forall e' : Engine, router e' = router e -> handle e' w r = handle e w r).
Proof.
  intros Hf Hp Hw.
  assert (He : forall e' : Engine, router e' = router e -> handle e' w r = handle e w r).
  { intros e' Hr. unfold handle. by rewrite Hr, Hf. }
  destruct (http_Error_fresh w "404 page not found" 404 Hp Hw) as (H1 & H2 & H3 & H4 & _); try done.
  refine (conj _ (conj _ (conj _ (conj _ (conj _ (conj _ He)))))); clear He;
    unfold handle, response_status, response_body; rewrite Hf; simpl; unfold http_NotFound; auto.
Qed.

Lemma handle_not_found_witness :
  find (router New) (Method (mkReq "GET" "/missing")) (URL_Path (mkReq "GET" "/missing")) = None /\
  tw_panic fresh_transport = None /\ tw_wrote fresh_transport = false /\
  response_status (handle New fresh_transport (mkReq "GET" "/missing")) = 404.
Proof.
  assert (H1 : find (router New) (Method (mkReq "GET" "/missing")) (URL_Path (mkReq "GET" "/missing")) = None)
    by reflexivity.
  assert (H2 : tw_panic fresh_transport = None) by reflexivity.
  assert (H3 : tw_wrote fresh_transport = false) by reflexivity.
  split; [exact H1 |]. split; [exact H2 |]. split; [exact H3 |].
  exact (proj1 (handle_not_found New fresh_transport (mkReq "GET" "/missing") H1 H2 H3)).
Defined.

(** Global middleware accumulates: [Use(a...)] then [Use(b...)] leaves
    the router alone and builds the same chain as [Use(a..., b...)]: the
    earlier global middleware outside, then [a], then [b], then the
    handler. The list is read at dispatch, so it applies to routes
    registered before the call as well. *)
Theorem Engine_Use_accumulates (e : Engine) (m1 m2 : list Middleware) (h : HandlerFunc) :
  heap_wf (e_heap e) -> slice_wf (e_heap e) (e_middlewares e) ->
  router (Engine_Use (Engine_Use e m1) m2) = router e /\
  buildChain (Engine_Use (Engine_Use e m1) m2) h =
    wrap_all (slice_read (e_heap e) (e_middlewares e)) (wrap_all m1 (wrap_all m2 h)) /\
  buildChain (Engine_Use (Engine_Use e m1) m2) h = buildChain (Engine_Use e (m1 ++ m2)) h.
Proof.
  intros Hh Hs.
  pose proof (slice_append_spec (e_heap e) (e_middlewares e) m1 Hh Hs) as H1.
  pose proof (slice_append_spec (e_heap e) (e_middlewares e) (m1 ++ m2) Hh Hs) as H12.
  unfold Engine_Use.
  destruct (slice_append (e_heap e) (e_middlewares e) m1) as [h1 s1].
  destruct H1 as (Hr1 & _ & Hh1 & Hs1 & _).
  pose proof (slice_append_spec h1 s1 m2 Hh1 Hs1) as H2. simpl.
  destruct (slice_append h1 s1 m2) as [h2 s2].
  destruct H2 as (Hr2 & _).
  destruct (slice_append (e_heap e) (e_middlewares e) (m1 ++ m2)) as [h3 s3].
  destruct H12 as (Hr3 & _).
  unfold buildChain. simpl. rewrite Hr2, Hr1, Hr3, <- app_assoc, !wrap_all_app. auto.
Qed.

Lemma Engine_Use_accumulates_witness :
  heap_wf (e_heap New) /\ slice_wf (e_heap New) (e_middlewares New) /\
  buildChain (Engine_Use (Engine_Use New [tracing_mw "a"]) [tracing_mw "b"]) (trace_handler "h") =
    buildChain (Engine_Use New ([tracing_mw "a"] ++ [tracing_mw "b"])) (trace_handler "h").
Proof.
  assert (Hh : heap_wf (e_heap New)) by (intros b _; apply lookup_empty).
  assert (Hs : slice_wf (e_heap New) (e_middlewares New)) by (split; reflexivity).
  split; [exact Hh |]. split; [exact Hs |].
  exact (proj2 (proj2 (Engine_Use_accumulates New [tracing_mw "a"] [tracing_mw "b"] (trace_handler "h") Hh Hs))).
Defined.

Lemma tw_WriteHeader_valid_panic w code :
  valid_code code = true -> tw_panic (tw_WriteHeader w code) = tw_panic w.
Proof.
  intros Hv. unfold tw_WriteHeader. rewrite Hv. destruct (tw_panic w) eqn:Hp; simpl; [done |].
  repeat case_match; done.
Qed.

Lemma tw_WriteHeader_written w code :
  tw_panic w = None -> tw_wrote w = true -> valid_code code = true -> tw_WriteHeader w code = w.
Proof. intros Hp Hw Hv. unfold tw_WriteHeader. rewrite Hp, Hv, Hw. reflexivity. Qed.

Lemma tw_WriteHeader_interim w code :
  tw_panic w = None -> tw_wrote w = false -> valid_code code = true -> informational code = true ->
  tw_wrote (tw_WriteHeader w code) = false /\
  tw_interim (tw_WriteHeader w code) = tw_interim w ++ [code] /\
  tw_panic (tw_WriteHeader w code) = None.
Proof. intros Hp Hw Hv Hi. unfold tw_WriteHeader. rewrite Hp, Hv, Hw, Hi. simpl. auto. Qed.

Lemma tw_WriteHeader_final_fields w code :
  tw_panic w = None -> tw_wrote w = false -> valid_code code = true -> informational code = false ->
  tw_wrote (tw_WriteHeader w code) = true /\ tw_status (tw_WriteHeader w code) = code /\
  tw_interim (tw_WriteHeader w code) = tw_interim w /\ tw_panic (tw_WriteHeader w code) = None.
Proof.
  intros Hp Hw Hv Hi. unfold tw_WriteHeader. rewrite Hp, Hv, Hw, Hi. simpl.
  repeat case_match; simpl; auto.
Qed.

Lemma tw_Write_fields w b :
  tw_panic w = None ->
  tw_wrote (fst (tw_Write w b)) = tw_wrote (tw_WriteHeader w 200) /\
  tw_status (fst (tw_Write w b)) = tw_status (tw_WriteHeader w 200) /\
  tw_panic (fst (tw_Write w b)) = tw_panic (tw_WriteHeader w 200).
Proof. intros Hp. unfold tw_Write at 1 2 3. rewrite Hp. repeat case_match; simplify_eq/=; auto. Qed.

Lemma rw_WriteHeader_ok rw code :
  tw_panic (ResponseWriter rw) = None ->
  rw_WriteHeader rw code =
    {| ResponseWriter := tw_WriteHeader (ResponseWriter rw) code; rw_status := code; rw_size := rw_size rw |}.
Proof. intros Hp. unfold rw_WriteHeader. by rewrite Hp. Qed.

(** ** The response writer *)

(** The wrapper records the code of the last [WriteHeader] call. The
    response carries the first final status sent: after a final code (or
    once anything was written) a second [WriteHeader] changes nothing on
    the server, while an informational first code (1xx but 101) goes out
    as an interim response and the next final code decides the status. A
    [Write] before any [WriteHeader] sends 200. A code outside 100-999
    makes net/http panic ("invalid WriteHeader code"), after which the
    writer does nothing. So the recorded status (what [Logger] prints)
    can differ from the status the client got. *)
Theorem rw_status_is_last_code (rw : responseWriter) (a b : Z) (s : string) :
  tw_panic (ResponseWriter rw) = None -> valid_code b = true ->
  (valid_code a = true ->
   rw_status (rw_WriteHeader (rw_WriteHeader rw a) b) = b /\
   (informational a = false \/ tw_wrote (ResponseWriter rw) = true ->
    tw_status (ResponseWriter (rw_WriteHeader (rw_WriteHeader rw a) b)) =
      (if tw_wrote (ResponseWriter rw) then tw_status (ResponseWriter rw) else a)) /\
   (informational a = true -> informational b = false -> tw_wrote (ResponseWriter rw) = false ->
    tw_status (ResponseWriter (rw_WriteHeader (rw_WriteHeader rw a) b)) = b /\
    tw_interim (ResponseWriter (rw_WriteHeader (rw_WriteHeader rw a) b)) =
      tw_interim (ResponseWriter rw) ++ [a])) /\
  (valid_code a = false ->
   tw_panic (ResponseWriter (rw_WriteHeader rw a)) = Some (sapp "invalid WriteHeader code " (fmt_int a)) /\
   ResponseWriter (rw_WriteHeader (rw_WriteHeader rw a) b) = ResponseWriter (rw_WriteHeader rw a)) /\
  rw_status (rw_WriteHeader (fst (rw_Write rw s)) b) = b /\
  tw_status (ResponseWriter (rw_WriteHeader (fst (rw_Write rw s)) b)) =
    (if tw_wrote (ResponseWriter rw) then tw_status (ResponseWriter rw) else 200).
Proof.
  intros Hp Hb. destruct rw as [w rst rsz]; simpl in Hp |- *.
  split; [| split].
  - intros Ha. rewrite (rw_WriteHeader_ok _ a) by done. simpl.
    rewrite rw_WriteHeader_ok by (simpl; by rewrite tw_WriteHeader_valid_panic). simpl.
    split; [reflexivity |]. split.
    + intros Hc. destruct (tw_wrote w) eqn:Hw.
      * rewrite (tw_WriteHeader_written w a) by done. by rewrite tw_WriteHeader_written.
      * destruct Hc as [Hi | Hc]; [| discriminate].
        destruct (tw_WriteHeader_final_fields w a Hp Hw Ha Hi) as (H1 & H2 & _ & H4).
        by rewrite tw_WriteHeader_written.
    + intros Hia Hib Hw.
      destruct (tw_WriteHeader_interim w a Hp Hw Ha Hia) as (H1 & H2 & H3).
      destruct (tw_WriteHeader_final_fields (tw_WriteHeader w a) b H3 H1 Hb Hib) as (_ & H6 & H7 & _).
      by rewrite H6, H7, H2.
  - intros Ha. unfold rw_WriteHeader, tw_WriteHeader; simpl. rewrite Hp, Ha. simpl. done.
  - unfold rw_Write. pose proof (tw_Write_fields w s Hp) as (H1 & H2 & H3).
    destruct (tw_Write w s) as [w' [n err]] eqn:Hwr. simpl in *.
    assert (Hw1 : tw_wrote (tw_WriteHeader w 200) = true /\ tw_panic (tw_WriteHeader w 200) = None /\
                  tw_status (tw_WriteHeader w 200) = (if tw_wrote w then tw_status w else 200)).
    { destruct (tw_wrote w) eqn:Hw.
      - rewrite tw_WriteHeader_written by done. auto.
      - destruct (tw_WriteHeader_final_fields w 200 Hp Hw) as (G1 & G2 & _ & G4); auto. }
    destruct Hw1 as (G1 & G2 & G3).
    rewrite Hwr. simpl. rewrite rw_WriteHeader_ok by (simpl; congruence). simpl.
    split; [reflexivity |]. rewrite tw_WriteHeader_written by congruence. congruence.
Qed.

Lemma rw_status_is_last_code_witness :
  tw_panic (ResponseWriter (newResponseWriter fresh_transport)) = None /\ valid_code 200 = true /\
  valid_code 103 = true /\ informational 103 = true /\ informational 200 = false /\
  tw_wrote (ResponseWriter (newResponseWriter fresh_transport)) = false /\
  tw_status (ResponseWriter (rw_WriteHeader (rw_WriteHeader (newResponseWriter fresh_transport) 103) 200))
    = 200.
Proof.
  assert (Hp : tw_panic (ResponseWriter (newResponseWriter fresh_transport)) = None) by reflexivity.
  assert (Hb : valid_code 200 = true) by reflexivity.
  assert (Ha : valid_code 103 = true) by reflexivity.
  assert (Hia : informational 103 = true) by reflexivity.
  assert (Hib : informational 200 = false) by reflexivity.
  assert (Hw : tw_wrote (ResponseWriter (newResponseWriter fresh_transport)) = false) by reflexivity.
  do 6 (split; [assumption |]).
  exact (proj1 (proj2 (proj2 (proj1 (rw_status_is_last_code (newResponseWriter fresh_transport)
                                       103 200 EmptyString Hp Hb) Ha)) Hia Hib Hw)).
Defined.

Lemma string_length_sapp a b : String.length (sapp a b) = (String.length a + String.length b)%nat.
Proof. induction a as [| c r IH]; [reflexivity |]. rewrite sapp_cons. simpl. by rewrite IH. Qed.

Lemma tw_WriteHeader_body w code : tw_body (tw_WriteHeader w code) = tw_body w.
Proof. unfold tw_WriteHeader. repeat case_match; reflexivity. Qed.

(** A [Write] reports exactly the bytes it appended. *)
Lemma tw_Write_counts w b :
  Z.of_nat (String.length (tw_body (fst (tw_Write w b)))) =
    Z.of_nat (String.length (tw_body w)) + fst (snd (tw_Write w b)).
Proof.
  unfold tw_Write. destruct (tw_panic w); simpl; [lia |].
  rewrite <- (tw_WriteHeader_body w 200).
  destruct (Z.eqb _ 0); simpl; [lia |].
  destruct (bodyAllowedForStatus _); simpl; [| lia].
  destruct (_ || _); simpl; [rewrite string_length_sapp |]; lia.
Qed.

Lemma rw_WriteHeader_body rw code :
  tw_body (ResponseWriter (rw_WriteHeader rw code)) = tw_body (ResponseWriter rw) /\
  rw_size (rw_WriteHeader rw code) = rw_size rw.
Proof.
  unfold rw_WriteHeader. destruct (tw_panic _); simpl; [done |].
  by rewrite tw_WriteHeader_body.
Qed.

(** A status that allows no body makes a non-empty [Write] fail with
    [ErrBodyNotAllowed], appending nothing. *)
Lemma tw_Write_refused w b :
  tw_panic w = None -> tw_wrote w = true -> bodyAllowedForStatus (tw_status w) = false ->
  b <> EmptyString -> tw_Write w b = (w, (0, Some ErrBodyNotAllowed)).
Proof.
  intros Hp Hw Hb Hne. unfold tw_Write. rewrite Hp, tw_WriteHeader_written by done.
  destruct b as [| ch b]; [done |]. simpl. by rewrite Hb.
Qed.

(** [Context.Text] keeps the wrapper's byte count exact, whatever the
    code: if the count equals the body length before, it does after. On a
    response not yet started, with no declared Content-Length and a
    final status that allows a body, the body grows by the text and no
    error is returned; with 204 or 304 a non-empty text is refused with
    [ErrBodyNotAllowed], which [Context.Text] returns, and the body stays
    as it was. *)
Theorem Text_keeps_size_exact (c : Context) (code : Z) (s : string) :
  rw_size (Writer c) = Z.of_nat (String.length (response_body c)) ->
  rw_size (Writer (fst (Context_Text c code s))) =
    Z.of_nat (String.length (response_body (fst (Context_Text c code s)))) /\
  (tw_panic (ResponseWriter (Writer c)) = None -> tw_wrote (ResponseWriter (Writer c)) = false ->
   header_Get (tw_header (ResponseWriter (Writer c))) "Content-Length" = EmptyString ->
   valid_code code = true -> informational code = false -> bodyAllowedForStatus code = true ->
   response_body (fst (Context_Text c code s)) = sapp (response_body c) s /\
   snd (Context_Text c code s) = None) /\
  (tw_panic (ResponseWriter (Writer c)) = None -> tw_wrote (ResponseWriter (Writer c)) = false ->
   (code = 204 \/ code = 304) -> s <> EmptyString ->
   response_body (fst (Context_Text c code s)) = response_body c /\
   snd (Context_Text c code s) = Some ErrBodyNotAllowed).
Proof.
  intros Hs. split; [| split].
  - unfold Context_Text, rw_Write, response_body in *.
    destruct (rw_WriteHeader_body (Writer c) code) as [Hb Hz].
    pose proof (tw_Write_counts (ResponseWriter (rw_WriteHeader (Writer c) code)) s) as Hc.
    destruct (tw_Write _ _) as [w' [n err]]. simpl in *. rewrite Hb in Hc. lia.
  - intros Hp Hw Hc Hv Hi Hb.
    destruct c as [[[hd wr st it cl wn bd pn] rst rsz] req ps cst]; simpl in *; subst wr pn.
    unfold Context_Text, rw_Write, rw_WriteHeader, response_body; simpl.
    rewrite tw_WriteHeader_final by done.
    destruct (tw_Write_allowed
                {| tw_header := hd; tw_wrote := true; tw_status := code; tw_interim := it;
                   tw_contentLength := -1; tw_written := wn; tw_body := bd; tw_panic := None |} s)
      as (_ & _ & _ & _ & _ & H6 & H7); simpl; try done.
    destruct (tw_Write _ _) as [w' [n err]]. simpl in *. injection H7 as -> ->. auto.
  - intros Hp Hw Hcode Hne.
    assert (Hv : valid_code code = true /\ informational code = false /\
                 bodyAllowedForStatus code = false) by (destruct Hcode as [-> | ->]; auto).
    destruct Hv as (Hv & Hi & Hb).
    unfold Context_Text, rw_Write, response_body. rewrite rw_WriteHeader_ok by done. simpl.
    destruct (tw_WriteHeader_final_fields _ code Hp Hw Hv Hi) as (G1 & G2 & _ & G4).
    rewrite tw_Write_refused by (try rewrite G2; done). simpl.
    rewrite tw_WriteHeader_body. auto.
Qed.

Lemma Text_keeps_size_exact_witness :
  rw_size (Writer (ctx_with_query "")) = Z.of_nat (String.length (response_body (ctx_with_query ""))) /\
  tw_panic (ResponseWriter (Writer (ctx_with_query ""))) = None /\
  tw_wrote (ResponseWriter (Writer (ctx_with_query ""))) = false /\
  (204 = 204 \/ 204 = 304) /\ "pong" <> EmptyString /\
  snd (Context_Text (ctx_with_query "") 204 "pong") = Some ErrBodyNotAllowed.
Proof.
  assert (H : rw_size (Writer (ctx_with_query "")) =
              Z.of_nat (String.length (response_body (ctx_with_query "")))) by reflexivity.
  assert (Hp : tw_panic (ResponseWriter (Writer (ctx_with_query ""))) = None) by reflexivity.
  assert (Hw : tw_wrote (ResponseWriter (Writer (ctx_with_query ""))) = false) by reflexivity.
  assert (Hc : 204 = 204 \/ 204 = 304) by (left; reflexivity).
  assert (Hne : "pong" <> EmptyString) by discriminate.
  do 5 (split; [assumption |]).
  exact (proj2 (proj2 (proj2 (Text_keeps_size_exact (ctx_with_query "") 204 "pong" H)) Hp Hw Hc Hne)).
Defined.

(** ** Query parameters *)

Lemma split_on_cons sep s : exists x xs, split_on sep s = x :: xs.
Proof.
  destruct s as [| c r]; simpl; [eauto |].
  destruct (Ascii.eqb c sep); [eauto |].
  destruct (split_on sep r); eauto.
Qed.

Lemma split_on_app sep s1 s2 :
  split_on sep (sapp s1 (String sep s2)) = split_on sep s1 ++ split_on sep s2.
Proof.
  induction s1 as [| c r IH].
  - simpl. by rewrite Ascii.eqb_refl.
  - rewrite sapp_cons. simpl. rewrite IH.
    destruct (Ascii.eqb c sep); [reflexivity |].
    destruct (split_on_cons sep r) as (x & xs & ->). reflexivity.
Qed.

Lemma split_on_nosep sep s : contains_char sep s = false -> split_on sep s = [s].
Proof.
  induction s as [| c r IH]; [done |]. simpl. intros H.
  apply orb_false_iff in H as [Hc Hr]. rewrite IH by done. by rewrite Hc.
Qed.

Lemma parse_piece_first m piece k v vs :
  m !! k = Some (v :: vs) -> exists vs', parse_piece m piece !! k = Some (v :: vs').
Proof.
  intros Hm. unfold parse_piece.
  destruct (contains_char ";"%char piece); [eauto |].
  destruct (String.eqb piece EmptyString); [eauto |].
  destruct (cut_eq piece) as [k0 v0].
  destruct (query_unescape k0) as [key |]; [| eauto].
  destruct (query_unescape v0) as [value |]; [| eauto].
  destruct (decide (key = k)) as [-> | Hne].
  - rewrite lookup_insert_eq, Hm. simpl. eauto.
  - rewrite lookup_insert_ne by done. eauto.
Qed.

Lemma fold_parse_first l m k v vs :
  m !! k = Some (v :: vs) -> exists vs', fold_left parse_piece l m !! k = Some (v :: vs').
Proof.
  revert m vs. induction l as [| piece l IH]; intros m vs Hm; simpl; [eauto |].
  destruct (parse_piece_first m piece k v vs Hm) as [vs' Hp]. exact (IH _ _ Hp).
Qed.

(** The first occurrence of a key decides [Query]: once a prefix of the
    raw query gives the key its first value, whatever follows the next
    [&] does not change what [Query] returns, even when that first value
    is empty ([page=&page=5] reads as a missing page). *)
Theorem Query_first_occurrence_wins (c : Context) (q1 q2 k v : string) (vs : list string) :
  URL_RawQuery (c_Request c) = sapp q1 (String "&"%char q2) ->
  ParseQuery q1 !! k = Some (v :: vs) ->
  Query c k = v.
Proof.
  intros Hq H1. unfold Query, ParseQuery in *. rewrite Hq, split_on_app, fold_left_app.
  destruct (fold_parse_first (split_on "&"%char q2) _ k v vs H1) as [vs' Hv].
  unfold values_Get. by rewrite Hv.
Qed.

Lemma Query_first_occurrence_wins_witness :
  URL_RawQuery (c_Request (ctx_with_query "page=&page=5")) = sapp "page=" (String "&"%char "page=5") /\
  ParseQuery "page=" !! "page" = Some [""] /\
  Query (ctx_with_query "page=&page=5") "page" = "".
Proof.
  assert (H1 : URL_RawQuery (c_Request (ctx_with_query "page=&page=5")) = sapp "page=" (String "&"%char "page=5"))
    by reflexivity.
  assert (H2 : ParseQuery "page=" !! "page" = Some [""]) by reflexivity.
  split; [exact H1 |]. split; [exact H2 |].
  exact (Query_first_occurrence_wins (ctx_with_query "page=&page=5") "page=" "page=5" "page" "" [] H1 H2).
Defined.

(** A malformed piece of the raw query (one containing [;], or with an
    invalid [%] escape in its key or its value) is dropped: appending it
    after a [&] leaves the parsed query, hence every [Query], unchanged. *)
Theorem ParseQuery_drops_malformed_piece (q piece : string) :
  contains_char "&"%char piece = false ->
  contains_char ";"%char piece = true \/ query_unescape (fst (cut_eq piece)) = None \/
    query_unescape (snd (cut_eq piece)) = None ->
  ParseQuery (sapp q (String "&"%char piece)) = ParseQuery q.
Proof.
  intros Ha Hbad. unfold ParseQuery.
  rewrite split_on_app, fold_left_app, (split_on_nosep _ piece Ha). simpl.
  unfold parse_piece.
  destruct (contains_char ";"%char piece) eqn:Hsc; [reflexivity |].
  destruct (String.eqb piece EmptyString); [reflexivity |].
  destruct (cut_eq piece) as [k0 v0]. simpl in Hbad.
  destruct Hbad as [Hbad | [Hbad | Hbad]]; [discriminate | rewrite Hbad; reflexivity |].
  destruct (query_unescape k0); [rewrite Hbad |]; reflexivity.
Qed.

Lemma ParseQuery_drops_malformed_piece_witness :
  contains_char "&"%char "page=%zz" = false /\
  (contains_char ";"%char "page=%zz" = true \/ query_unescape (fst (cut_eq "page=%zz")) = None \/
     query_unescape (snd (cut_eq "page=%zz")) = None) /\
  ParseQuery (sapp "size=10" (String "&"%char "page=%zz")) = ParseQuery "size=10".
Proof.
  assert (H1 : contains_char "&"%char "page=%zz" = false) by reflexivity.
  assert (H2 : contains_char ";"%char "page=%zz" = true \/ query_unescape (fst (cut_eq "page=%zz")) = None \/
     query_unescape (snd (cut_eq "page=%zz")) = None) by (right; right; reflexivity).
  split; [exact H1 |]. split; [exact H2 |].
  exact (ParseQuery_drops_malformed_piece "size=10" "page=%zz" H1 H2).
Defined.

(** ** Static file routes *)

Section CleanChars.
Variable P : ascii -> Prop.
Hypothesis P_slash : P "/"%char.
Hypothesis P_dot : P "."%char.

Lemma clean_back_Forall out d : Forall P out -> Forall P (clean_back out d).
Proof.
  induction out as [| c rest IH]; intros H; simpl; [done |].
  inversion H as [| ? ? Hc Hr]; subst.
  destruct (Nat.ltb d (length rest) && negb (Ascii.eqb c "/"%char)); auto.
Qed.

Lemma clean_copy_Forall s out :
  Forall P s -> Forall P out -> Forall P (fst (clean_copy s out)) /\ Forall P (snd (clean_copy s out)).
Proof.
  revert out. induction s as [| c r IH]; intros out Hs Ho; simpl; [auto |].
  inversion Hs as [| ? ? Hc Hr]; subst.
  destruct (Ascii.eqb c "/"%char); simpl; [auto |]. apply IH; auto.
Qed.

Lemma Forall_skipn1 (l : list ascii) : Forall P l -> Forall P (skipn 1 l).
Proof. destruct l; simpl; [auto | intros H; by inversion H]. Qed.

Lemma clean_loop_Forall fuel rooted s out d :
  Forall P s -> Forall P out -> Forall P (clean_loop fuel rooted s out d).
Proof.
  revert s out d. induction fuel as [| fuel IH]; intros s out d Hs Ho; simpl; [done |].
  destruct s as [| c r]; [done |].
  inversion Hs as [| ? ? Hc Hr]; subst.
  destruct (Ascii.eqb c "/"%char); [auto |].
  destruct (Ascii.eqb c "."%char && match r with [] => true | c1 :: _ => Ascii.eqb c1 "/"%char end);
    [auto |].
  destruct (Ascii.eqb c "."%char &&
            match r with
            | c1 :: r1 => Ascii.eqb c1 "."%char &&
                          match r1 with [] => true | c2 :: _ => Ascii.eqb c2 "/"%char end
            | [] => false
            end).
  - pose proof (Forall_skipn1 r Hr) as Hr2.
    destruct (Nat.ltb d (length out)); [apply IH; auto using clean_back_Forall |].
    destruct rooted; [auto |].
    apply IH; [done |]. constructor; [done |]. constructor; [done |].
    destruct (Nat.ltb 0 (length out)); auto.
  - set (out1 := if rooted && negb (Nat.eqb (length out) 1) || negb rooted && negb (Nat.eqb (length out) 0)
                  then "/"%char :: out else out).
    assert (Ho1 : Forall P out1) by (unfold out1; destruct (_ || _); auto).
    destruct (clean_copy_Forall (c :: r) out1 Hs Ho1) as [H1 H2].
    destruct (clean_copy (c :: r) out1) as [r2 out2]. simpl in *. auto.
Qed.

Lemma path_Clean_Forall p :
  Forall P (list_ascii_of_string p) -> Forall P (list_ascii_of_string (path_Clean p)).
Proof.
  intros H. destruct p as [| c r]; [simpl; auto |].
  unfold path_Clean. lazy beta iota zeta.
  assert (Ho : forall fuel rooted d,
            Forall P (clean_loop fuel rooted (list_ascii_of_string (String c r))
                        (if rooted then ["/"%char] else []) d)).
  { intros fuel rooted d. apply clean_loop_Forall; [exact H |]. destruct rooted; auto. }
  match goal with |- context [match clean_loop ?f ?ro ?s ?o ?d with _ => _ end] =>
    pose proof (Ho f ro d) as Ho'; destruct (clean_loop f ro s o d) as [| x xs] end;
    [simpl; auto |].
  rewrite list_ascii_of_string_of_list_ascii. by apply Forall_rev.
Qed.
End CleanChars.

Lemma contains_char_Forall c s :
  contains_char c s = false <-> Forall (fun x => x <> c) (list_ascii_of_string s).
Proof.
  induction s as [| x r IH]; simpl; [split; auto |].
  rewrite orb_false_iff, IH, Forall_cons, Ascii.eqb_neq. tauto.
Qed.

Lemma hasParams_path_Join2 a b :
  hasParams a = false -> hasParams b = false -> hasParams (path_Join2 a b) = false.
Proof.
  unfold hasParams. intros Ha Hb. unfold path_Join2.
  destruct (String.eqb (sapp a b) EmptyString); [reflexivity |].
  apply contains_char_Forall in Ha, Hb. apply contains_char_Forall.
  destruct (String.eqb a EmptyString); apply path_Clean_Forall; try done.
  rewrite list_ascii_of_string_app. apply Forall_app. split; [done |]. by constructor.
Qed.

(** [Static] and [StaticFS] register [path.Join(prefix, "/*filepath")]
    with [GET]. The router has no wildcard: for a prefix without [:] that
    path has no [:] either, so it is a static route, matched only by the
    literal request path ([/static/*filepath] for the prefix [/static]);
    for every other request path, routing is exactly as before the call
    (a request for [/static/app.css] is not routed to the file server).
    [StaticFS] panics with [fs.Sub]'s error, registering nothing. *)
Theorem Static_registers_literal_path (serveFiles : string -> Context -> Context) (e : Engine)
  (pfx p : string) (err : error) :
  hasParams pfx = false ->
  p <> path_Join2 pfx "/*filepath" ->
  find (router (Static serveFiles e pfx)) "GET" p = find (router e) "GET" p /\
  find (router (Static serveFiles e pfx)) "GET" (path_Join2 pfx "/*filepath") =
    Some ({| handler := static_handler serveFiles pfx; middlewares := nil_slice |}, None) /\
  StaticFS serveFiles e pfx None = (Static serveFiles e pfx, None) /\
  StaticFS serveFiles e pfx (Some err) = (e, Some err).
Proof.
  intros Hp Hne.
  assert (Hj : hasParams (path_Join2 pfx "/*filepath") = false)
    by (apply hasParams_path_Join2; [exact Hp | reflexivity]).
  assert (Hr : router (Static serveFiles e pfx) =
               addWithMiddleware (router e) "GET" (path_Join2 pfx "/*filepath")
                 (static_handler serveFiles pfx) nil_slice) by reflexivity.
  split; [| split; [| split; reflexivity]].
  - rewrite Hr. unfold find at 1.
    rewrite static_lookup_add_other by (right; congruence).
    unfold addWithMiddleware. rewrite Hj. reflexivity.
  - rewrite Hr. unfold find. by rewrite static_lookup_add_static.
Qed.

Lemma Static_registers_literal_path_witness :
  hasParams "/static" = false /\ "/static/app.css" <> path_Join2 "/static" "/*filepath" /\
  find (router (Static (fun _ c => c) New "/static")) "GET" "/static/app.css" =
    find (router New) "GET" "/static/app.css".
Proof.
  assert (H1 : hasParams "/static" = false) by reflexivity.
  assert (H2 : "/static/app.css" <> path_Join2 "/static" "/*filepath") by (vm_compute; discriminate).
  split; [exact H1 |]. split; [exact H2 |].
  exact (proj1 (Static_registers_literal_path (fun _ c => c) New "/static" "/static/app.css" "" H1 H2)).
Defined.

(** ** Groups end to end *)

(** [app.Group(pfx, ms...).GET(path, h)]: the route is stored under the
    raw concatenation [pfx + path]; a request for exactly that path finds
    [h] with no bindings, and the route's middleware reads as [ms]. *)
Theorem Group_GET_routes_prefixed_path (e : Engine) (pfx path : string) (ms : list Middleware)
  (h : HandlerFunc) :
  heap_wf (e_heap e) -> hasParams (sapp pfx path) = false ->
  let '(e1, g) := Engine_Group e pfx ms in
  let e2 := fst (RouterGroup_GET e1 g path [h]) in
  exists rt, find (router e2) "GET" (sapp pfx path) = Some (rt, None) /\
             handler rt = h /\ slice_read (e_heap e2) (middlewares rt) = ms.
Proof.
  intros Hh Hp. unfold Engine_Group.
  pose proof (slice_lit_spec (e_heap e) ms Hh) as Hl.
  destruct (slice_lit (e_heap e) ms) as [h1 s1]. destruct Hl as (Hr1 & _).
  simpl. eexists. split; [unfold find; rewrite static_lookup_add_static by exact Hp; reflexivity |].
  split; [reflexivity |]. exact Hr1.
Qed.

Lemma Group_GET_routes_prefixed_path_witness :
  heap_wf (e_heap New) /\ hasParams (sapp "/api" "/ping") = false /\
  let '(e1, g) := Engine_Group New "/api" [tracing_mw "a"] in
  let e2 := fst (RouterGroup_GET e1 g "/ping" [text_pong_handler]) in
  exists rt, find (router e2) "GET" (sapp "/api" "/ping") = Some (rt, None) /\
             handler rt = text_pong_handler /\ slice_read (e_heap e2) (middlewares rt) = [tracing_mw "a"].
Proof.
  assert (Hh : heap_wf (e_heap New)) by (intros b _; apply lookup_empty).
  assert (Hp : hasParams (sapp "/api" "/ping") = false) by reflexivity.
  split; [exact Hh |]. split; [exact Hp |].
  exact (Group_GET_routes_prefixed_path New "/api" "/ping" [tracing_mw "a"] text_pong_handler Hh Hp).
Defined.

Lemma tw_WriteHeader_header_other w code k :
  k <> "Content-Length" -> tw_header (tw_WriteHeader w code) !! k = tw_header w !! k.
Proof.
  intros Hk. unfold tw_WriteHeader.
  repeat case_match; simplify_eq/=; rewrite ?lookup_delete_ne; congruence.
Qed.

Lemma tw_Header_Set_panic w k v : tw_panic (tw_Header_Set w k v) = tw_panic w.
Proof. unfold tw_Header_Set. repeat case_match; simpl; congruence. Qed.

(** [Context.JSON] with a valid code does not make the writer panic. *)
Lemma Context_JSON_no_panic c code v :
  tw_panic (ResponseWriter (Writer c)) = None -> valid_code code = true ->
  tw_panic (ResponseWriter (Writer (fst (Context_JSON c code v)))) = None.
Proof.
  intros Hp Hv. unfold Context_JSON.
  set (w0 := tw_Header_Set (ResponseWriter (Writer c)) "Content-Type" "application/json").
  assert (H0 : tw_panic w0 = None) by (subst w0; by rewrite tw_Header_Set_panic).
  rewrite rw_WriteHeader_ok by (simpl; exact H0). simpl.
  assert (H1 : tw_panic (tw_WriteHeader w0 code) = None) by (by rewrite tw_WriteHeader_valid_panic).
  destruct (tw_Write_fields _ (sapp (json_encode v) nl) H1) as (_ & _ & H3).
  destruct (tw_Write _ _) as [w2 [n err]]. simpl in *. rewrite H3.
  by rewrite tw_WriteHeader_valid_panic.
Qed.

(** ** Recover and Logger *)

(** [Recover] never lets a panic through: its result is never a panic and
    leaves the writer usable. When the wrapped handler returns without a
    panic, its result passes unchanged. When it panics (directly or in a
    call to the writer), [Recover] returns a nil error, so the engine's
    error handler is not called, and calls [c.JSON(500, ...)] with
    [{"error":"internal server error"}], whatever the panic value was. If
    no status was sent yet (and no Content-Length was declared), the
    response gets status 500, Content-Type application/json and that JSON
    plus a newline appended to its body; if a status was already sent, the
    status stays. *)
Theorem Recover_catches_panics (next : PHandlerFunc) (c : Context) :
  (exists err, snd (Recover next c) = Returned err) /\
  tw_panic (ResponseWriter (Writer (fst (Recover next c)))) = None /\
  (forall c1 err, next c = (c1, Returned err) -> tw_panic (ResponseWriter (Writer c1)) = None ->
     Recover next c = (c1, Returned err)) /\
  (forall c1 o, next c = (c1, o) ->
     (exists v, o = Panicked v) \/ (exists v, tw_panic (ResponseWriter (Writer c1)) = Some v) ->
     snd (Recover next c) = Returned None /\
     (tw_wrote (ResponseWriter (Writer c1)) = false ->
      header_Get (tw_header (ResponseWriter (Writer c1))) "Content-Length" = EmptyString ->
      response_status (fst (Recover next c)) = 500 /\
      rw_status (Writer (fst (Recover next c))) = 500 /\
      tw_header (ResponseWriter (Writer (fst (Recover next c)))) !! "Content-Type" =
        Some ["application/json"] /\
      response_body (fst (Recover next c)) =
        sapp (response_body c1) (sapp (json_encode internal_server_error) nl)) /\
     (tw_wrote (ResponseWriter (Writer c1)) = true ->
      response_status (fst (Recover next c)) = response_status c1)).
Proof.
  assert (Hrec : forall c1,
    tw_panic (ResponseWriter (Writer (fst (Context_JSON (clear_panic c1) 500 internal_server_error)))) = None /\
    (tw_wrote (ResponseWriter (Writer c1)) = false ->
     header_Get (tw_header (ResponseWriter (Writer c1))) "Content-Length" = EmptyString ->
     response_status (fst (Context_JSON (clear_panic c1) 500 internal_server_error)) = 500 /\
     rw_status (Writer (fst (Context_JSON (clear_panic c1) 500 internal_server_error))) = 500 /\
     tw_header (ResponseWriter (Writer (fst (Context_JSON (clear_panic c1) 500 internal_server_error))))
       !! "Content-Type" = Some ["application/json"] /\
     response_body (fst (Context_JSON (clear_panic c1) 500 internal_server_error)) =
       sapp (response_body c1) (sapp (json_encode internal_server_error) nl)) /\
    (tw_wrote (ResponseWriter (Writer c1)) = true ->
     response_status (fst (Context_JSON (clear_panic c1) 500 internal_server_error)) = response_status c1)).
  { intros c1. split; [| split].
    - apply Context_JSON_no_panic; reflexivity.
    - intros Hw Hc.
      destruct (Context_JSON_fresh (clear_panic c1) 500 internal_server_error) as (H1 & H2 & H3 & H4 & _);
        try done.
    - intros Hw. destruct (Context_JSON_written (clear_panic c1) 500 internal_server_error) as [H1 _];
        try done. }
  unfold Recover.
  split; [destruct (next c) as [c1 [err | v]]; [destruct (tw_panic _) |]; eauto |].
  split; [destruct (next c) as [c1 [err | v]]; [destruct (tw_panic (ResponseWriter (Writer c1))) eqn:Hp |];
          simpl; try apply Hrec; done |].
  split; [intros c1 err -> Hp; by rewrite Hp |].
  intros c1 o -> Ho.
  assert (Hr : match o with
               | Returned err => match tw_panic (ResponseWriter (Writer c1)) with
                                 | Some _ => (fst (Context_JSON (clear_panic c1) 500 internal_server_error), Returned None)
                                 | None => (c1, Returned err) end
               | Panicked _ => (fst (Context_JSON (clear_panic c1) 500 internal_server_error), Returned None)
               end = (fst (Context_JSON (clear_panic c1) 500 internal_server_error), Returned None)).
  { destruct Ho as [[v ->] | [v Hv]]; [done |]. destruct o; [by rewrite Hv | done]. }
  rewrite Hr. simpl. destruct (Hrec c1) as (_ & H2 & H3). auto.
Qed.

Lemma Recover_catches_panics_witness :
  lift (fun c => Context_Text c 0 "x") (ctx_with_query "") =
    (fst (lift (fun c => Context_Text c 0 "x") (ctx_with_query "")),
     snd (lift (fun c => Context_Text c 0 "x") (ctx_with_query ""))) /\
  snd (lift (fun c => Context_Text c 0 "x") (ctx_with_query "")) = Panicked "invalid WriteHeader code 0" /\
  tw_wrote (ResponseWriter (Writer (fst (lift (fun c => Context_Text c 0 "x") (ctx_with_query ""))))) = false /\
  header_Get (tw_header (ResponseWriter (Writer (fst (lift (fun c => Context_Text c 0 "x") (ctx_with_query ""))))))
    "Content-Length" = EmptyString /\
  response_status (fst (Recover (lift (fun c => Context_Text c 0 "x")) (ctx_with_query ""))) = 500.
Proof.
  assert (H1 : lift (fun c => Context_Text c 0 "x") (ctx_with_query "") =
    (fst (lift (fun c => Context_Text c 0 "x") (ctx_with_query "")),
     snd (lift (fun c => Context_Text c 0 "x") (ctx_with_query "")))) by reflexivity.
  assert (H2 : snd (lift (fun c => Context_Text c 0 "x") (ctx_with_query "")) =
                 Panicked "invalid WriteHeader code 0") by (vm_compute; reflexivity).
  assert (H3 : tw_wrote (ResponseWriter (Writer (fst (lift (fun c => Context_Text c 0 "x")
                 (ctx_with_query ""))))) = false) by reflexivity.
  assert (H4 : header_Get (tw_header (ResponseWriter (Writer (fst (lift (fun c => Context_Text c 0 "x")
                 (ctx_with_query "")))))) "Content-Length" = EmptyString) by reflexivity.
  do 4 (split; [assumption |]).
  exact (proj1 (proj1 (proj2 (proj2 (proj2 (proj2 (Recover_catches_panics (lift (fun c => Context_Text c 0 "x"))
           (ctx_with_query "")))) _ _ H1 (or_introl (ex_intro _ _ H2)))) H3 H4)).
Defined.



(** ** Templates *)

Section TemplateProps.
Context {TFunc Tmpl Data : Type}.
Variables (safeHTML now date : TFunc).
Variable ParseGlob : gmap string TFunc -> string -> Tmpl + error.
Variable ExecuteTemplate : Tmpl -> string -> Data -> list string * option error.

(** [LoadTemplates] builds a fresh template engine with [defaultFuncMap]
    and parses with those functions only. A function added by
    [AddTemplateFunc] before [LoadTemplates] is therefore lost (unless its
    name is a default one). A failed load leaves the engine's templates
    as they were. A function added after a load goes into the function
    map, but the parsed templates stay the ones parsed before. *)
Theorem LoadTemplates_discards_added_funcs (et : EngineTemplates) (name pattern : string) (fn : TFunc)
  (parsed : Tmpl) (err : error) :
  (ParseGlob (defaultFuncMap safeHTML now date) pattern = inl parsed ->
   LoadTemplates safeHTML now date ParseGlob (AddTemplateFunc safeHTML now date et name fn) pattern =
     ({| templates := Some {| te_pattern := pattern; funcMap := defaultFuncMap safeHTML now date;
                              tmpl := Some parsed |};
         devMode := devMode et |}, None) /\
   (name <> "safeHTML" -> name <> "now" -> name <> "date" ->
    defaultFuncMap safeHTML now date !! name = None)) /\
  (ParseGlob (defaultFuncMap safeHTML now date) pattern = inr err ->
   LoadTemplates safeHTML now date ParseGlob et pattern = (et, Some err)) /\
  (forall t, templates et = Some t ->
   exists t', templates (AddTemplateFunc safeHTML now date et name fn) = Some t' /\
              tmpl t' = tmpl t /\ funcMap t' !! name = Some fn).
Proof.
  split; [| split].
  - intros Hp. unfold LoadTemplates, load. simpl. rewrite Hp. split; [reflexivity |].
    intros H1 H2 H3. unfold defaultFuncMap.
    rewrite !lookup_insert_ne by congruence. apply lookup_empty.
  - intros Hp. unfold LoadTemplates, load. simpl. by rewrite Hp.
  - intros t Ht. unfold AddTemplateFunc. rewrite Ht. simpl. eexists. split; [reflexivity |].
    split; [reflexivity |]. simpl. apply lookup_insert_eq.
Qed.

(** [Context.HTML] without any template engine fails with "templates not
    loaded" and writes nothing. A template engine that was only created
    by [AddTemplateFunc] has no parsed templates. Outside dev mode, HTML
    then sets the HTML content type and calls [WriteHeader(code)]: for a
    final code (100-999 but not an informational 1xx) the status is sent,
    and then HTML panics on the nil template; for a code outside 100-999
    it panics in [WriteHeader] ("invalid WriteHeader code"). In dev mode
    a failed reload returns the parse error, writing nothing. *)
Theorem HTML_needs_loaded_templates (et : EngineTemplates) (c : Context) (code : Z) (name : string)
  (data : Data) (fname : string) (fn : TFunc) (t : TemplateEngine) (err : error) :
  (templates et = None ->
   HTML ParseGlob ExecuteTemplate et c code name data = (et, (c, Returned (Some ErrTemplatesNotLoaded)))) /\
  (templates et = None -> devMode et = false ->
   tw_panic (ResponseWriter (Writer c)) = None -> tw_wrote (ResponseWriter (Writer c)) = false ->
   valid_code code = true -> informational code = false ->
   let '(_, (c1, o)) := HTML ParseGlob ExecuteTemplate (AddTemplateFunc safeHTML now date et fname fn)
                          c code name data in
   o = Panicked nil_deref_panic /\ response_status c1 = code /\
   tw_header (ResponseWriter (Writer c1)) !! "Content-Type" = Some ["text/html; charset=utf-8"]) /\
  (templates et = None -> devMode et = false ->
   tw_panic (ResponseWriter (Writer c)) = None -> valid_code code = false ->
   snd (snd (HTML ParseGlob ExecuteTemplate (AddTemplateFunc safeHTML now date et fname fn)
               c code name data)) = Panicked (sapp "invalid WriteHeader code " (fmt_int code))) /\
  (templates et = Some t -> devMode et = true -> ParseGlob (funcMap t) (te_pattern t) = inr err ->
   HTML ParseGlob ExecuteTemplate et c code name data = (et, (c, Returned (Some err)))).
Proof.
  split; [| split; [| split]].
  - intros H. unfold HTML. by rewrite H.
  - intros H Hd Hp Hw Hv Hi. unfold HTML, AddTemplateFunc. rewrite H, Hd. simpl.
    destruct c as [[[hd wr st it cl wn bd pn] rst rsz] req ps cst]. simpl in Hp, Hw. subst wr pn.
    unfold tw_Header_Set, rw_WriteHeader, set_tw_header. simpl.
    destruct (tw_WriteHeader_final_fields
                {| tw_header := <["Content-Type" := ["text/html; charset=utf-8"]]> hd; tw_wrote := false;
                   tw_status := st; tw_interim := it; tw_contentLength := cl; tw_written := wn;
                   tw_body := bd; tw_panic := None |} code) as (_ & H2 & _ & H4); try done.
    rewrite H4. unfold response_status. simpl. split; [reflexivity |]. split; [exact H2 |].
    rewrite tw_WriteHeader_header_other by discriminate. apply lookup_insert_eq.
  - intros H Hd Hp Hv. unfold HTML, AddTemplateFunc. rewrite H, Hd. simpl.
    unfold rw_WriteHeader. simpl. rewrite tw_Header_Set_panic, Hp. simpl.
    unfold tw_WriteHeader. rewrite tw_Header_Set_panic, Hp, Hv. reflexivity.
  - intros H Hd Hp. destruct et as [tt dm]. simpl in H, Hd. subst tt dm.
    unfold HTML, load. simpl. by rewrite Hp.
Qed.

End TemplateProps.

Definition parse_ok (_ : gmap string Z) (_ : string) : Z + error := inl 7.
Definition no_templates : @EngineTemplates Z Z := {| templates := None; devMode := false |}.

Lemma LoadTemplates_discards_added_funcs_witness :
  parse_ok (defaultFuncMap 1 2 3) "views/*.html" = inl 7 /\
  LoadTemplates 1 2 3 parse_ok (AddTemplateFunc 1 2 3 no_templates "upper" 9) "views/*.html" =
    ({| templates := Some {| te_pattern := "views/*.html"; funcMap := defaultFuncMap 1 2 3;
                             tmpl := Some 7 |};
        devMode := devMode no_templates |}, None).
Proof.
  assert (H : parse_ok (defaultFuncMap 1 2 3) "views/*.html" = inl 7) by reflexivity.
  split; [exact H |].
  exact (proj1 (proj1 (LoadTemplates_discards_added_funcs 1 2 3 parse_ok no_templates "upper" "views/*.html"
                         9 7 "" ) H)).
Defined.

Definition exec_empty (_ : Z) (_ : string) (_ : unit) : list string * option error := ([], None).

Lemma HTML_needs_loaded_templates_witness :
  templates no_templates = None /\ devMode no_templates = false /\
  tw_panic (ResponseWriter (Writer (ctx_with_query ""))) = None /\
  tw_wrote (ResponseWriter (Writer (ctx_with_query ""))) = false /\
  valid_code 200 = true /\ informational 200 = false /\
  let '(_, (c1, o)) := HTML parse_ok exec_empty (AddTemplateFunc 1 2 3 no_templates "upper" 9)
                         (ctx_with_query "") 200 "index.html" tt in
  o = Panicked nil_deref_panic /\ response_status c1 = 200 /\
  tw_header (ResponseWriter (Writer c1)) !! "Content-Type" = Some ["text/html; charset=utf-8"].
Proof.
  assert (H1 : templates no_templates = None) by reflexivity.
  assert (H2 : devMode no_templates = false) by reflexivity.
  assert (H3 : tw_panic (ResponseWriter (Writer (ctx_with_query ""))) = None) by reflexivity.
  assert (H4 : tw_wrote (ResponseWriter (Writer (ctx_with_query ""))) = false) by reflexivity.
  assert (H5 : valid_code 200 = true) by reflexivity.
  assert (H6 : informational 200 = false) by reflexivity.
  do 6 (split; [assumption |]).
  exact (proj1 (proj2 (HTML_needs_loaded_templates 1 2 3 parse_ok exec_empty no_templates
           (ctx_with_query "") 200 "index.html" tt "upper" 9
           {| te_pattern := EmptyString; funcMap := ∅; tmpl := None |} EmptyString)) H1 H2 H3 H4 H5 H6).
Defined.
